(** * pyworkflow.protocol.launch: launching and stopping protocol executions

    A shallow embedding of [pyworkflow/protocol/launch.py] and a check of
    its natural-language specification against it.

    The module is Python 3 code: it prints through the [print] function and
    converts what a subprocess wrote with [str(out)] and [out.decode()].
    What [communicate] hands back is therefore a [bytes] object: [str(out)]
    is its [repr], a [str] pattern cannot be searched in it, and
    [out.decode()] decodes UTF-8.  Rocq's [string], whose characters are
    eight bits wide, is the type of [bytes]; a [str] is held as its UTF-8
    encoding.

    Side effects (the files written, the processes spawned and waited for,
    the lines printed) are recorded in an explicit world that every
    operation threads through; an exception leaves the world as it was when
    it was raised. *)

From Stdlib Require Import ZArith String Ascii List Bool Lia.
From Stdlib Require Import Numbers.DecimalString.
From stdpp Require Import base option gmap strings.
Import ListNotations.

Local Open Scope string_scope.
Local Open Scope Z_scope.

(** ** Python strings and bytes *)

Module PyStr.

(** One of the ten ASCII digits: what [\d] matches in a text that holds
    ASCII only. *)
Definition is_digit (c : ascii) : bool :=
  let n := N_of_ascii c in ((48 <=? n) && (n <=? 57))%N.

Definition digit_val (c : ascii) : Z := Z.of_N (N_of_ascii c) - 48.

(** The longest prefix of [s] made of digits: what a greedy [\d*] at the
    start of [s] consumes. *)
Fixpoint take_digits (s : string) : string :=
  match s with
  | String c s' => if is_digit c then String c (take_digits s') else ""
  | EmptyString => ""
  end.

Fixpoint all_digits (s : string) : bool :=
  match s with
  | String c s' => is_digit c && all_digits s'
  | EmptyString => true
  end.

Fixpoint has_digit (s : string) : bool :=
  match s with
  | String c s' => is_digit c || has_digit s'
  | EmptyString => false
  end.

(** Does [s] begin with a digit? *)
Definition starts_with_digit (s : string) : bool :=
  match s with
  | String c _ => is_digit c
  | EmptyString => false
  end.

(** [s[len(p):]] when [s.startswith(p)]. *)
Fixpoint strip_prefix (p s : string) : option string :=
  match p, s with
  | EmptyString, _ => Some s
  | String a p', String b s' =>
      if Ascii.eqb a b then strip_prefix p' s' else None
  | String _ _, EmptyString => None
  end.

(** A match of the pattern [lit(\d+)] anchored at the start of [s]:
    the digits captured by the group. *)
Definition match_here (lit s : string) : option string :=
  match strip_prefix lit s with
  | Some rest =>
      match take_digits rest with
      | EmptyString => None
      | ds => Some ds
      end
  | None => None
  end.

(** [re.search(lit + '(\d+)', s)]: the leftmost position where the
    pattern matches; the result is the text of the digit group.  With
    [lit = ""] this is [re.search('(\d+)', s)] and the group is the whole
    match. *)
Fixpoint re_search_digits (lit s : string) : option string :=
  match match_here lit s with
  | Some ds => Some ds
  | None =>
      match s with
      | String _ s' => re_search_digits lit s'
      | EmptyString => None
      end
  end.

(** [int(ds)] for a string of decimal digits. *)
Definition int_of_digits (ds : string) : Z :=
  fold_left (fun acc c => 10 * acc + digit_val c) (list_ascii_of_string ds) 0.

(** [str(n)] for an integer. *)
Definition str_of_int (n : Z) : string :=
  NilZero.string_of_int (Z.to_int n).

(** The digit [n] of a [\xhh] escape. *)
Definition hex_digit (n : N) : ascii :=
  match String.get (N.to_nat n) "0123456789abcdef" with
  | Some c => c
  | None => "0"%char
  end.

Fixpoint contains (c : ascii) (s : string) : bool :=
  match s with
  | String b s' => Ascii.eqb b c || contains c s'
  | EmptyString => false
  end.

(** How [repr] writes one byte inside the quotes [quote]. *)
Definition escape_byte (quote c : ascii) : string :=
  let n := N_of_ascii c in
  if Ascii.eqb c quote || Ascii.eqb c "\" then String "\" (String c "")
  else if Ascii.eqb c "009" then "\t"
  else if Ascii.eqb c "010" then "\n"
  else if Ascii.eqb c "013" then "\r"
  else if (n <? 32)%N || (127 <=? n)%N
  then String "\" (String "x" (String (hex_digit (n / 16))
                                   (String (hex_digit (n mod 16)) "")))
  else String c "".

Fixpoint escape_bytes (quote : ascii) (s : string) : string :=
  match s with
  | String c s' => escape_byte quote c +:+ escape_bytes quote s'
  | EmptyString => ""
  end.

(** The quote [repr] chooses: the double quote when the bytes hold a
    single quote and no double quote, the single quote otherwise. *)
Definition repr_quote (s : string) : ascii :=
  if contains "'" s && negb (contains "034" s) then "034"%char else "'"%char.

(** [str(b)] for a [bytes] object [b]: its [repr], as in [b'job 12\n']. *)
Definition bytes_repr (s : string) : string :=
  let quote := repr_quote s in
  String "b" (String quote (escape_bytes quote s +:+ String quote "")).

(** Bytes below 128. *)
Definition is_ascii_byte (c : ascii) : bool := (N_of_ascii c <? 128)%N.

Fixpoint all_ascii (s : string) : bool :=
  match s with
  | String c s' => is_ascii_byte c && all_ascii s'
  | EmptyString => true
  end.

(** Bytes that [repr] writes as they are or behind a backslash. *)
Definition is_printable (c : ascii) : bool :=
  let n := N_of_ascii c in ((32 <=? n) && (n <? 127))%N.

Fixpoint all_printable (s : string) : bool :=
  match s with
  | String c s' => is_printable c && all_printable s'
  | EmptyString => true
  end.

(** The strict UTF-8 decoder, as an automaton over the bytes: where it
    stands between two characters, or inside one. *)
Inductive utf8_state :=
| Between
| Need (more : nat)
| AfterE0
| AfterED
| AfterF0
| AfterF4.

Definition in_range (lo hi n : N) : bool := ((lo <=? n) && (n <=? hi))%N.

Definition utf8_step (st : utf8_state) (c : ascii) : option utf8_state :=
  let n := N_of_ascii c in
  match st with
  | Between =>
      if (n <? 128)%N then Some Between
      else if in_range 194 223 n then Some (Need 1)
      else if (n =? 224)%N then Some AfterE0
      else if (n =? 237)%N then Some AfterED
      else if in_range 225 239 n then Some (Need 2)
      else if (n =? 240)%N then Some AfterF0
      else if in_range 241 243 n then Some (Need 3)
      else if (n =? 244)%N then Some AfterF4
      else None
  | Need more =>
      if in_range 128 191 n then
        match more with
        | O => None
        | S O => Some Between
        | S k => Some (Need k)
        end
      else None
  | AfterE0 => if in_range 160 191 n then Some (Need 1) else None
  | AfterED => if in_range 128 159 n then Some (Need 1) else None
  | AfterF0 => if in_range 144 191 n then Some (Need 2) else None
  | AfterF4 => if in_range 128 143 n then Some (Need 2) else None
  end.

Fixpoint utf8_run (st : utf8_state) (s : string) : option utf8_state :=
  match s with
  | EmptyString => Some st
  | String c s' =>
      match utf8_step st c with
      | Some st' => utf8_run st' s'
      | None => None
      end
  end.

Definition utf8_valid (s : string) : bool :=
  match utf8_run Between s with
  | Some Between => true
  | _ => false
  end.

(** [b.decode()]: the text the bytes encode, when they are valid UTF-8. *)
Definition decode (s : string) : option string :=
  if utf8_valid s then Some s else None.

(** [posixpath.split]: the text up to and including the last slash, and
    the text after it. *)
Fixpoint split_last_slash (s : string) : option (string * string) :=
  match s with
  | EmptyString => None
  | String c s' =>
      match split_last_slash s' with
      | Some (h, t) => Some (String c h, t)
      | None => if Ascii.eqb c "/" then Some ("/", s') else None
      end
  end.

(** [s.rstrip('/')]. *)
Fixpoint rstrip_slash (s : string) : string :=
  match s with
  | EmptyString => ""
  | String c s' =>
      match rstrip_slash s' with
      | EmptyString => if Ascii.eqb c "/" then "" else String c ""
      | r => String c r
      end
  end.

(** [os.path.dirname]. *)
Definition dirname (p : string) : string :=
  match split_last_slash p with
  | None => ""
  | Some (head, _) =>
      match rstrip_slash head with
      | EmptyString => head
      | stripped => stripped
      end
  end.

(** [os.path.basename]. *)
Definition basename (p : string) : string :=
  match split_last_slash p with
  | None => p
  | Some (_, tail) => tail
  end.

End PyStr.

(** ** Python values, exceptions and [%] formatting *)

(** The values a submit dictionary holds: strings and numbers. *)
Inductive PyVal :=
| VStr (s : string)
| VInt (n : Z).

Definition py_str (v : PyVal) : string :=
  match v with
  | VStr s => s
  | VInt n => PyStr.str_of_int n
  end.

(** [v == "..."] against a string literal. *)
Definition py_eq_str (v : PyVal) (s : string) : bool :=
  match v with
  | VStr t => String.eqb t s
  | VInt _ => false
  end.

Inductive exn :=
| KeyError (key : string)
| ValueError (msg : string)
| TypeError (msg : string)
| IOError (path : string)
| UnicodeDecodeError (bytes : string)
| Exception (msg : string).

Inductive Res (A : Type) :=
| OK (a : A)
| Raise (e : exn).
Arguments OK {A} a.
Arguments Raise {A} e.

Definition res_bind {A B} (r : Res A) (k : A -> Res B) : Res B :=
  match r with
  | OK a => k a
  | Raise e => Raise e
  end.

(** A text as Python types it. *)
Inductive PyText :=
| Str (s : string)
| Bytes (b : string).

(** [re.search(lit + '(\d+)', subject)] with the pattern a [str]: the digit
    group of the leftmost match, or a [TypeError] when the subject is a
    [bytes] object.  A [str] subject is searched as ASCII, which is what the
    one [str] this module searches, a [repr], holds. *)
Definition re_search (lit : string) (subject : PyText)
    : Res (option string) :=
  match subject with
  | Str s => OK (PyStr.re_search_digits lit s)
  | Bytes _ =>
      Raise (TypeError "cannot use a string pattern on a bytes-like object")
  end.

(** [d[key]]. *)
Definition dict_get (d : gmap string PyVal) (key : string) : Res PyVal :=
  match d !! key with
  | Some v => OK v
  | None => Raise (KeyError key)
  end.

Module PyFormat.

(** [template % d] for a dictionary [d], as the interpreter's formatting
    loop runs it: one pass over the template, left to right.  A mapping
    key is looked up as soon as its closing parenthesis is read, before
    the conversion that follows it.  The pass interprets [%%] and
    [%(NAME)s]; when it meets any other directive (a flag, a width, another
    conversion, a conversion without a key) it says so and goes no
    further. *)
Inductive state :=
| Lit
| Percent
| Key (depth : nat) (key : string)
| Conv (v : PyVal).

(** What a pass comes to: it went through, Python raises, or the template
    goes beyond what the pass interprets. *)
Inductive pass (A : Type) :=
| Went (a : A)
| Stopped (e : exn)
| Beyond (directive : ascii).
Arguments Went {A} a.
Arguments Stopped {A} e.
Arguments Beyond {A} directive.

Definition snoc (s : string) (c : ascii) : string := s +:+ String c "".

Definition step (d : gmap string PyVal) (st : state) (out : string)
    (c : ascii) : pass (state * string) :=
  match st with
  | Lit =>
      if Ascii.eqb c "%" then Went (Percent, out) else Went (Lit, snoc out c)
  | Percent =>
      if Ascii.eqb c "%" then Went (Lit, snoc out c)
      else if Ascii.eqb c "(" then Went (Key 1 "", out)
      else Beyond c
  | Key depth key =>
      if Ascii.eqb c ")" then
        match depth with
        | 1%nat =>
            match d !! key with
            | Some v => Went (Conv v, out)
            | None => Stopped (KeyError key)
            end
        | _ => Went (Key (Nat.pred depth) (snoc key c), out)
        end
      else if Ascii.eqb c "(" then Went (Key (S depth) (snoc key c), out)
      else Went (Key depth (snoc key c), out)
  | Conv v =>
      if Ascii.eqb c "s" then Went (Lit, out +:+ py_str v)
      else Beyond c
  end.

Fixpoint steps (d : gmap string PyVal) (st : state) (out : string)
    (t : string) : pass (state * string) :=
  match t with
  | EmptyString => Went (st, out)
  | String c t' =>
      match step d st out c with
      | Went (st', out') => steps d st' out' t'
      | Stopped e => Stopped e
      | Beyond c' => Beyond c'
      end
  end.

(** The end of the template. *)
Definition finish (r : state * string) : pass string :=
  match r with
  | (Lit, out) => Went out
  | (Key _ _, _) => Stopped (ValueError "incomplete format key")
  | (_, _) => Stopped (ValueError "incomplete format")
  end.

Definition interpret (t : string) (d : gmap string PyVal) : pass string :=
  match steps d Lit "" t with
  | Went r => finish r
  | Stopped e => Stopped e
  | Beyond c => Beyond c
  end.

(** A key without parentheses, as in [%(JOB_SCRIPT)s]. *)
Fixpoint plain_key (k : string) : bool :=
  match k with
  | EmptyString => true
  | String c k' =>
      negb (Ascii.eqb c "(") && negb (Ascii.eqb c ")") && plain_key k'
  end.

End PyFormat.

(** ** The world: a file system and a trace of effects *)

Inductive redirect :=
| Inherit
| PIPE
| ToFile (path : string).

Inductive event :=
| EvPrint (line : string)
| EvOpenW (path : string)
| EvMakePath (path : string)
| EvWrite (path data : string)
| EvClose (path : string)
| EvSpawn (cmd : string)
| EvWait (cmd : string)
| EvKillTree (pid : Z)
| EvSetJobId (jobId : Z).

Record FS := mkFS {
  fs_dirs : gset string;
  fs_files : gmap string string
}.

(** What a spawned shell command does, as far as this module can see. *)
Record ProcResult := mkProc {
  pr_pid : Z;
  pr_stdout : string;
  pr_stderr : string;
  pr_returncode : Z
}.

(** A [Popen] object. *)
Record Handle := mkHandle {
  h_cmd : string;
  h_stdout : redirect;
  h_stderr : redirect;
  h_proc : ProcResult
}.

(** A computation reads and updates the file system, emits events and
    returns or raises.  What was done before an exception stays done. *)
Definition M (A : Type) : Type := FS -> Res A * FS * list event.

Definition ret {A} (a : A) : M A := fun fs => (OK a, fs, []).

Definition raise {A} (e : exn) : M A := fun fs => (Raise e, fs, []).

Definition bind {A B} (m : M A) (k : A -> M B) : M B :=
  fun fs =>
    match m fs with
    | (OK a, fs1, t1) =>
        match k a fs1 with
        | (r, fs2, t2) => (r, fs2, (t1 ++ t2)%list)
        end
    | (Raise e, fs1, t1) => (Raise e, fs1, t1)
    end.

Definition lift {A} (r : Res A) : M A := fun fs => (r, fs, []).

Definition emit (e : event) : M unit := fun fs => (OK tt, fs, [e]).

Notation "'do' x <- m ; k" := (bind m (fun x => k))
  (at level 10, x name, m at level 100, k at level 200).
Notation "'run' m ; k" := (bind m (fun _ => k))
  (at level 10, m at level 100, k at level 200).

(** ** Files *)

(** The quote and newline characters. *)
Definition dq : string := String "034"%char "".
Definition nl : string := String "010"%char "".

(** The directory a path lies in exists: the current directory and the
    root always do. *)
Definition parent_exists (fs : FS) (path : string) : bool :=
  match PyStr.dirname path with
  | EmptyString => true
  | d => String.eqb d "/" || bool_decide (d ∈ fs_dirs fs)
  end.

(** A file can be opened for writing at [path]: the path is not empty,
    does not name a directory, and lies in a directory that exists. *)
Definition can_open (fs : FS) (path : string) : bool :=
  negb (String.eqb path "") && negb (bool_decide (path ∈ fs_dirs fs))
  && parent_exists fs path.

(** [open(path, 'w')]: the file is created or truncated, or it is an
    [IOError].  The handle is the path. *)
Definition open_w (path : string) : M string := fun fs =>
  if can_open fs path
  then (OK path,
        mkFS (fs_dirs fs) (<[path := ""]> (fs_files fs)),
        [EvOpenW path])
  else (Raise (IOError path), fs, []).

(** [f.write(data)]. *)
Definition write (f data : string) : M unit := fun fs =>
  (OK tt,
   mkFS (fs_dirs fs)
        (<[f := default "" (fs_files fs !! f) +:+ data]> (fs_files fs)),
   [EvWrite f data]).

(** [f.close()]. *)
Definition close (f : string) : M unit := emit (EvClose f).

(** Every directory on the way to [d], [d] included. *)
Fixpoint dirs_upto (acc d : string) : list string :=
  match d with
  | EmptyString => match acc with EmptyString => [] | _ => [acc] end
  | String c d' =>
      let rest := dirs_upto (PyFormat.snoc acc c) d' in
      if Ascii.eqb c "/" && negb (String.eqb acc "") then acc :: rest
      else rest
  end.

(** Modelled from the spec: [makeFilePath] of [pyworkflow.utils] is not
    among the sources.  It "creates any missing parent directories" of the
    path it is given, and touches no file. *)
Definition makeFilePath (path : string) : M unit := fun fs =>
  (OK tt,
   mkFS (list_to_set (dirs_upto "" (PyStr.dirname path)) ∪ fs_dirs fs)
        (fs_files fs),
   [EvMakePath path]).

(** ** The data model *)

Record HostConfig := mkHostConfig {
  getAddress : string;
  getScipionHome : string;
  getScipionConfig : option string;
  getSubmitTemplate : string;
  getSubmitCommand : string;
  getCancelCommand : string;
  getQueuesDefault : gmap string PyVal;
  getHostPath : string
}.

(** What this module reads of a protocol. *)
Record Protocol := mkProtocol {
  getHostName : string;
  getHostConfig : HostConfig;
  useQueue : bool;
  getSubmitDict : gmap string PyVal;
  isScheduled : bool;
  getJobId : Z;
  getPid : Z;
  getProjectPath : string;
  getDbPath : string;
  getObjId : Z
}.

Definition strId (protocol : Protocol) : string :=
  PyStr.str_of_int (getObjId protocol).

(** What the module takes from its surroundings during one call of one of
    its entry points: the constants and path join of [pyworkflow], the
    colouring helpers of [pyworkflow.utils], [UNKNOWN_JOBID] of
    [pyworkflow.protocol.constants], what Python makes of a template that
    goes beyond the directives [PyFormat] interprets, and what the process
    spawned for a command line does.  An entry point spawns at most one
    process in a call, so one answer for a command line is all that a call
    can see; what two calls see is told by two environments. *)
Record Env := mkEnv {
  PYTHON : string;
  APPS : string;
  pw_join : string -> string -> string;
  getScheduleScript : string;
  greenStr : string -> string;
  redStr : string -> string;
  UNKNOWN_JOBID : Z;
  python_format : string -> gmap string PyVal -> Res string;
  os_exec : string -> ProcResult
}.

Definition LOCALHOST : string := "localhost".

(** The three ways a protocol is executed. *)
Inductive strategy :=
| LocalDirect
| LocalQueued
| Remote.

Section Launch.

Context (env : Env).

(** *** Formatting *)

(** [template % d]: what the pass of [PyFormat] finds, and what Python
    makes of the template where the pass does not reach. *)
Definition py_format (t : string) (d : gmap string PyVal) : Res string :=
  match PyFormat.interpret t d with
  | PyFormat.Went text => OK text
  | PyFormat.Stopped e => Raise e
  | PyFormat.Beyond _ => python_format env t d
  end.

(** *** Processes *)

Definition print (line : string) : M unit := emit (EvPrint line).

(** [Popen(cmd, shell=True, stdout=.., stderr=..)]: the process is
    started; nothing waits for it.  What it does is what the environment of
    this call says of its command line. *)
Definition Popen (cmd : string) (stdout stderr : redirect) : M Handle :=
  run emit (EvSpawn cmd);
  ret (mkHandle cmd stdout stderr (os_exec env cmd)).

Definition captured (r : redirect) (text : string) : option string :=
  match r with
  | PIPE => Some text
  | _ => None
  end.

(** [p.communicate()]: blocks until the process has exited; a stream
    that was opened as a pipe comes back as the bytes written to it, any
    other as [None]. *)
Definition communicate (p : Handle) : M (option string * option string) :=
  run emit (EvWait (h_cmd p));
  ret (captured (h_stdout p) (pr_stdout (h_proc p)),
       captured (h_stderr p) (pr_stderr (h_proc p))).

(** [p.wait()]. *)
Definition wait_for (p : Handle) : M unit := emit (EvWait (h_cmd p)).

(** Modelled from the spec: [killWithChilds] of [pyworkflow.utils.process]
    is not among the sources.  It "terminates the process and all of its
    descendant processes" and is "tolerant of the process already being
    gone (treat as success)". *)
Definition killWithChilds (pid : Z) : M unit := emit (EvKillTree pid).

(** The truth value of a captured stream: [None] and the empty string
    are false. *)
Definition truthy (s : option string) : bool :=
  match s with
  | Some (String _ _) => true
  | _ => false
  end.

(** *** Internal utility functions *)

Definition _isLocal (protocol : Protocol) : bool :=
  String.eqb (getHostName protocol) LOCALHOST.

(** Execute a command in a subprocess and return the pid.  As in the
    source, [stdin] is accepted and not passed on. *)
Definition _run (command : string) (wait : bool)
    (stdin stdout stderr : redirect) : M Z :=
  let gcmd := greenStr env command in
  run print ("** Running command: '" +:+ gcmd +:+ "'");
  do p <- Popen command stdout stderr;
  let jobId := pr_pid (h_proc p) in
  run (if wait then wait_for p else ret tt);
  ret jobId.

(** *** Functions related to launch *)

(** The working directory and the environment that [_submit] can hand to
    [Popen] only reach the spawned command, whose behaviour is [os_exec].
    The search of line 229 runs on [str(out)], the [repr] of the bytes
    captured.  A number under ["JOB_SCRIPT"] is no path: [open] takes it
    for a file descriptor and [makeFilePath] cannot take its directory, so
    the call ends in an exception before anything is written. *)
Definition _submit (hostConfig : HostConfig)
    (submitDict : gmap string PyVal) : M Z :=
  do template <- lift (py_format (getSubmitTemplate hostConfig) submitDict);
  do scripPath <- lift (res_bind (dict_get submitDict "JOB_SCRIPT")
                          (fun v => match v with
                                    | VStr path => OK path
                                    | VInt _ =>
                                        Raise (TypeError "not a path")
                                    end));
  do f <- open_w scripPath;
  run makeFilePath scripPath;
  run write f (template +:+ nl +:+ nl);
  run close f;
  do command <- lift (py_format (getSubmitCommand hostConfig) submitDict);
  let gcmd := greenStr env command in
  run print ("** Submitting to queue: '" +:+ gcmd +:+ "'");
  do p <- Popen command PIPE Inherit;
  do streams <- communicate p;
  let out := default "" (fst streams) in
  do s <- lift (re_search "" (Str (PyStr.bytes_repr out)));
  match Z.eqb (pr_returncode (h_proc p)) 0, s with
  | true, Some digits =>
      let job := PyStr.int_of_digits digits in
      run print ("Launched job with id " +:+ PyStr.str_of_int job);
      ret job
  | _, _ =>
      match PyStr.decode out with
      | Some text =>
          run print ("Couldn't submit to queue for reason: "
                     +:+ redStr env text +:+ " ");
          ret (UNKNOWN_JOBID env)
      | None => raise (UnicodeDecodeError out)
      end
  end.

(** The test [useQueue and (getSubmitDict()["QUEUE_FOR_JOBS"] == "N")]:
    the lookup happens only when [useQueue] is true. *)
Definition launch_queue_test (protocol : Protocol) : Res bool :=
  if useQueue protocol
  then res_bind (dict_get (getSubmitDict protocol) "QUEUE_FOR_JOBS")
                (fun v => OK (py_eq_str v "N"))
  else OK false.

Definition _launchLocal (protocol : Protocol) (wait : bool)
    (stdin stdout stderr : redirect) : M Z :=
  let command :=
    PYTHON env +:+ " " +:+ pw_join env (APPS env) "pw_protocol_run.py"
    +:+ " " +:+ dq +:+ getProjectPath protocol +:+ dq
    +:+ " " +:+ dq +:+ getDbPath protocol +:+ dq
    +:+ " " +:+ strId protocol in
  let hostConfig := getHostConfig protocol in
  do queued <- lift (launch_queue_test protocol);
  if queued then
    let submitDict := getSubmitDict protocol ∪ getQueuesDefault hostConfig in
    let submitDict := <["JOB_COMMAND" := VStr command]> submitDict in
    _submit hostConfig submitDict
  else
    _run command wait stdin stdout stderr.

(** The command line [tpl % args] of [_runRemote]; every key of the
    template is a key of [args]. *)
Definition remote_command (protocol : Protocol) (mode : string) : string :=
  let host := getHostConfig protocol in
  let projectPath := PyStr.basename (getProjectPath protocol) in
  "ssh " +:+ getAddress host +:+ " '" +:+ getScipionHome host
  +:+ "/scipion "
  +:+ match getScipionConfig host with
      | Some config => "--config " +:+ config +:+ " "
      | None => ""
      end
  +:+ "runprotocol pw_protocol_remote.py " +:+ mode +:+ " "
  +:+ projectPath +:+ " " +:+ getDbPath protocol +:+ " "
  +:+ PyStr.str_of_int (getObjId protocol) +:+ "' ".

Definition _runRemote (protocol : Protocol) (mode : string) : M Handle :=
  let cmd := remote_command protocol mode in
  run print ("** Running remote: " +:+ greenStr env cmd);
  do p <- Popen cmd PIPE Inherit;
  ret p.

(** The source first sets [jobId] to [UNKNOWN_JOBID]; every path then
    overwrites it or raises, so that value is never returned.  The search
    of line 178 runs on [out] itself, the bytes captured. *)
Definition _launchRemote (protocol : Protocol) (wait : bool) : M Z :=
  do p <- _runRemote protocol "run";
  do streams <- communicate p;
  let out := fst streams in
  let err := snd streams in
  if truthy err then raise (Exception (default "" err))
  else
    match out with
    | None => raise (TypeError "expected string or bytes-like object")
    | Some out =>
        do s <- lift (re_search "Scipion remote jobid: " (Bytes out));
        match s with
        | Some digits => ret (PyStr.int_of_digits digits)
        | None =>
            raise (Exception ("** Couldn't parse ouput: "
                              +:+ redStr env (PyStr.bytes_repr out)))
        end
    end.

(** *** Functions related to stop *)

(** The test [useQueue() and not isScheduled()]. *)
Definition stop_queue_test (protocol : Protocol) : bool :=
  useQueue protocol && negb (isScheduled protocol).

Definition _stopLocal (protocol : Protocol) : M unit :=
  if stop_queue_test protocol then
    let jobId := getJobId protocol in
    let host := getHostConfig protocol in
    do cancelCmd <- lift (py_format (getCancelCommand host)
                                    {["JOB_ID" := VInt jobId]});
    run _run cancelCmd true Inherit Inherit Inherit;
    ret tt
  else
    killWithChilds (getPid protocol).

Definition _stopRemote (protocol : Protocol) : M unit :=
  run _runRemote protocol "stop";
  ret tt.

(** *** Public functions *)

Definition launch (protocol : Protocol) (wait : bool)
    (stdin stdout stderr : redirect) : M Z :=
  do jobId <- (if _isLocal protocol
               then _launchLocal protocol wait stdin stdout stderr
               else _launchRemote protocol wait);
  run emit (EvSetJobId jobId);
  ret jobId.

Definition stop (protocol : Protocol) : M unit :=
  if _isLocal protocol then _stopLocal protocol else _stopRemote protocol.

Definition schedule (protocol : Protocol) (initialSleepTime : Z)
    (wait : bool) : M Z :=
  let cmd := PYTHON env +:+ " " +:+ getScheduleScript env in
  let cmd := cmd +:+ " " +:+ dq +:+ getProjectPath protocol +:+ dq
             +:+ " " +:+ dq +:+ getDbPath protocol +:+ dq
             +:+ " " +:+ strId protocol
             +:+ " --initial_sleep " +:+ PyStr.str_of_int initialSleepTime in
  do jobId <- _run cmd wait Inherit Inherit Inherit;
  run emit (EvSetJobId jobId);
  ret jobId.

(** *** The branch each entry point takes *)

Definition launch_branch (protocol : Protocol) : Res strategy :=
  if _isLocal protocol then
    res_bind (launch_queue_test protocol)
             (fun queued => OK (if queued then LocalQueued else LocalDirect))
  else OK Remote.

Definition stop_branch (protocol : Protocol) : strategy :=
  if _isLocal protocol then
    if stop_queue_test protocol then LocalQueued else LocalDirect
  else Remote.

End Launch.

(** ** What the specification says of the parsers *)

(** The text [s] holds [lit] followed by the digits [ds] at offset
    [length pre]. *)
Definition occurs (lit s pre ds post : string) : Prop :=
  s = pre +:+ lit +:+ ds +:+ post /\ ds <> "" /\ PyStr.all_digits ds = true.

(** The leftmost such place, with all the digits that follow [lit] there. *)
Definition first_occurrence (lit s pre ds post : string) : Prop :=
  occurs lit s pre ds post
  /\ PyStr.starts_with_digit post = false
  /\ forall pre' ds' post',
       occurs lit s pre' ds' post' ->
       (String.length pre <= String.length pre')%nat.


(** The template [t] refers to the key [k], which the dictionary [d] lacks,
    and everything before that reference formats without error. *)
Definition first_missing_placeholder (t : string) (d : gmap string PyVal)
    (k : string) : Prop :=
  exists pre post text,
    t = pre +:+ "%(" +:+ k +:+ ")" +:+ post
    /\ PyFormat.plain_key k = true
    /\ PyFormat.interpret pre d = PyFormat.Went text
    /\ d !! k = None.

(** ** What the specification says of traces *)

Definition is_wait (cmd : string) (e : event) : bool :=
  match e with
  | EvWait c => String.eqb c cmd
  | _ => false
  end.

(** Every process spawned in the trace is waited for later in the trace:
    the caller was blocked until the process had exited. *)
Fixpoint all_waited (tr : list event) : bool :=
  match tr with
  | [] => true
  | EvSpawn cmd :: tr' => existsb (is_wait cmd) tr' && all_waited tr'
  | _ :: tr' => all_waited tr'
  end.


(** The parts of an outcome. *)
Definition result {A} (o : Res A * FS * list event) : Res A := fst (fst o).
Definition final_fs {A} (o : Res A * FS * list event) : FS := snd (fst o).
Definition trace {A} (o : Res A * FS * list event) : list event := snd o.

(** ** Concrete hosts, protocols and worlds *)

Module Scenario.

(** An environment whose every spawned command answers the same way. *)
Definition env_with (stdout stderr : string) (returncode : Z) : Env :=
  mkEnv "python" "apps" (fun a b => a +:+ "/" +:+ b) "pw_schedule_run.py"
        (fun s => s) (fun s => s) (-1)
        (fun t _ => OK t)
        (fun _ => mkProc 4242 stdout stderr returncode).

Definition torque : HostConfig :=
  mkHostConfig "" "/opt/scipion" None
               "%(JOB_COMMAND)s" "qsub %(JOB_SCRIPT)s" "qdel %(JOB_ID)s"
               ∅ "".


Definition cluster : HostConfig :=
  mkHostConfig "cluster.example.org" "/opt/scipion" None
               "%(JOB_COMMAND)s" "qsub %(JOB_SCRIPT)s" "qdel %(JOB_ID)s"
               ∅ "".

Definition submit_dict (script : string) : gmap string PyVal :=
  {[ "QUEUE_FOR_JOBS" := VStr "N"; "JOB_SCRIPT" := VStr script ]}.

(** A protocol on [localhost] that asks for the queue. *)
Definition queued (scheduled : bool) : Protocol :=
  mkProtocol "localhost" torque true (submit_dict "logs/3.job") scheduled
             555 77 "/data/projects/demo" "Runs/000003/logs/run.db" 3.

(** A protocol named for [localhost] whose host has a network address. *)
Definition local_with_address : Protocol :=
  mkProtocol "localhost" cluster false ∅ false 0 77
             "/data/projects/demo" "Runs/000003/logs/run.db" 3.

(** A protocol on another host. *)
Definition remote : Protocol :=
  mkProtocol "cluster" cluster false ∅ false 42 0
             "/data/projects/demo" "Runs/000003/logs/run.db" 3.

(** A file system with the directory [/tmp] and nothing else. *)
Definition only_tmp : FS := mkFS {[ "/tmp" ]} ∅.

Definition empty_fs : FS := mkFS ∅ ∅.

(** A file system with the relative directory [logs]. *)
Definition logs_fs : FS := mkFS {[ "logs" ]} ∅.

(** The submit dictionary [_launchLocal] hands to [_submit]. *)
Definition job_dict (script : string) : gmap string PyVal :=
  <["JOB_COMMAND" := VStr "python pw_protocol_run.py"]> (submit_dict script).

(** One byte that is neither ASCII nor the start of a UTF-8 sequence, and
    that [repr] writes as [\xff]. *)
Definition byte_ff : string := String "255"%char "".

End Scenario.

(** ** Predicates for the further properties *)

(** A text without a formatting directive. *)
Fixpoint no_percent (s : string) : bool :=
  match s with
  | EmptyString => true
  | String c s' => negb (Ascii.eqb c "%") && no_percent s'
  end.

(** A file name: a text without a slash. *)
Fixpoint no_slash (s : string) : bool :=
  match s with
  | EmptyString => true
  | String c s' => negb (Ascii.eqb c "/") && no_slash s'
  end.

Definition sets_job_id (e : event) : bool :=
  match e with
  | EvSetJobId _ => true
  | _ => false
  end.

(** The processes a trace spawns. *)
Fixpoint count_spawns (tr : list event) : nat :=
  match tr with
  | [] => 0
  | EvSpawn _ :: tr' => S (count_spawns tr')
  | _ :: tr' => count_spawns tr'
  end.

(** What [launch] and [schedule] do with the job id they got. *)
Definition record_job_id (jobId : Z) : M Z :=
  run emit (EvSetJobId jobId);
  ret jobId.

(** The command line [_launchLocal] builds for a protocol. *)
Definition local_command (env : Env) (protocol : Protocol) : string :=
  PYTHON env +:+ " " +:+ pw_join env (APPS env) "pw_protocol_run.py"
  +:+ " " +:+ dq +:+ getProjectPath protocol +:+ dq
  +:+ " " +:+ dq +:+ getDbPath protocol +:+ dq
  +:+ " " +:+ strId protocol.

(** The command line [schedule] builds for a protocol. *)
Definition schedule_command (env : Env) (protocol : Protocol)
    (initialSleepTime : Z) : string :=
  PYTHON env +:+ " " +:+ getScheduleScript env
  +:+ " " +:+ dq +:+ getProjectPath protocol +:+ dq
  +:+ " " +:+ dq +:+ getDbPath protocol +:+ dq
  +:+ " " +:+ strId protocol
  +:+ " --initial_sleep " +:+ PyStr.str_of_int initialSleepTime.

(** The dictionary [_launchLocal] hands to [_submit]. *)
Definition merged_dict (env : Env) (protocol : Protocol)
    : gmap string PyVal :=
  <["JOB_COMMAND" := VStr (local_command env protocol)]>
    (getSubmitDict protocol ∪ getQueuesDefault (getHostConfig protocol)).

(** The trace of [_run]. *)
Definition run_trace (env : Env) (command : string) (wait : bool)
    : list event :=
  [EvPrint ("** Running command: '" +:+ greenStr env command +:+ "'");
   EvSpawn command]
  ++ (if wait then [EvWait command] else []).

Module Cases.

(** A protocol on [localhost] that asks for the queue for its steps only. *)
Definition queue_for_steps : Protocol :=
  mkProtocol "localhost" Scenario.torque true
             {[ "QUEUE_FOR_JOBS" := VStr "Y" ]} false
             0 77 "/data/projects/demo" "Runs/000003/logs/run.db" 3.

(** A protocol that asks for the queue and says nothing of
    ["QUEUE_FOR_JOBS"]; the defaults of its host do. *)
Definition no_queue_entry : Protocol :=
  mkProtocol "localhost"
             (mkHostConfig "" "/opt/scipion" None
                "%(JOB_COMMAND)s" "qsub %(JOB_SCRIPT)s" "qdel %(JOB_ID)s"
                {[ "QUEUE_FOR_JOBS" := VStr "N" ]} "")
             true {[ "JOB_SCRIPT" := VStr "logs/3.job" ]} false
             0 77 "/data/projects/demo" "Runs/000003/logs/run.db" 3.

(** A queued protocol whose submit dictionary names no script. *)
Definition no_script : Protocol :=
  mkProtocol "localhost" Scenario.torque true
             {[ "QUEUE_FOR_JOBS" := VStr "N" ]} false
             0 77 "/data/projects/demo" "Runs/000003/logs/run.db" 3.

(** A queued protocol on a host whose cancel command names the queue. *)
Definition cancel_names_queue : Protocol :=
  mkProtocol "localhost"
             (mkHostConfig "" "/opt/scipion" None
                "%(JOB_COMMAND)s" "qsub %(JOB_SCRIPT)s"
                "qdel -q %(JOB_QUEUE)s %(JOB_ID)s" ∅ "")
             true (Scenario.submit_dict "logs/3.job") false
             555 77 "/data/projects/demo" "Runs/000003/logs/run.db" 3.

End Cases.

(** * Properties *)

(** ** Strings *)

Section StringFacts.

Import PyStr.

Lemma app_cons c s t : String c s +:+ t = String c (s +:+ t).
Proof. reflexivity. Qed.

Lemma app_nil_r s : s +:+ "" = s.
Proof. induction s as [|c s IH]; [reflexivity|]. now rewrite app_cons, IH. Qed.

Lemma app_assoc s t u : (s +:+ t) +:+ u = s +:+ t +:+ u.
Proof.
  induction s as [|c s IH]; [reflexivity|].
  now rewrite !app_cons, IH.
Qed.

Lemma strip_prefix_app lit rest : strip_prefix lit (lit +:+ rest) = Some rest.
Proof.
  induction lit as [|c lit IH]; [reflexivity|].
  rewrite app_cons. simpl. now rewrite Ascii.eqb_refl.
Qed.

Lemma strip_prefix_Some lit : forall s rest,
  strip_prefix lit s = Some rest -> s = lit +:+ rest.
Proof.
  induction lit as [|c lit IH]; intros s rest H.
  - simpl in H. now inversion H.
  - destruct s as [|b s]; simpl in H; [discriminate|].
    destruct (Ascii.eqb_spec c b) as [->|]; [|discriminate].
    rewrite app_cons. f_equal. now apply IH.
Qed.

Lemma take_digits_all s : all_digits (take_digits s) = true.
Proof.
  induction s as [|c s IH]; [reflexivity|].
  simpl. destruct (is_digit c) eqn:E; [|reflexivity].
  simpl. now rewrite E, IH.
Qed.

Lemma take_digits_split s :
  exists post, s = take_digits s +:+ post /\ starts_with_digit post = false.
Proof.
  induction s as [|c s [post [IH1 IH2]]].
  - now exists "".
  - simpl. destruct (is_digit c) eqn:E.
    + exists post. rewrite app_cons. split; [now f_equal|assumption].
    + exists (String c s). split; [reflexivity|]. exact E.
Qed.

Lemma take_digits_app ds post :
  all_digits ds = true -> starts_with_digit post = false ->
  take_digits (ds +:+ post) = ds.
Proof.
  intros Hds Hpost. induction ds as [|c ds IH].
  - destruct post as [|b post]; [reflexivity|].
    simpl in *. now rewrite Hpost.
  - simpl in Hds. apply andb_true_iff in Hds as [Hc Hds].
    rewrite app_cons. simpl. rewrite Hc. f_equal. now apply IH.
Qed.

Lemma take_digits_app_nonempty ds post :
  ds <> "" -> all_digits ds = true -> take_digits (ds +:+ post) <> "".
Proof.
  destruct ds as [|c ds]; [congruence|]. intros _ H.
  simpl in H. apply andb_true_iff in H as [Hc _].
  rewrite app_cons. simpl. now rewrite Hc.
Qed.

Lemma match_here_Some lit s ds :
  match_here lit s = Some ds ->
  exists post, occurs lit s "" ds post /\ starts_with_digit post = false.
Proof.
  unfold match_here, occurs. intros H.
  destruct (strip_prefix lit s) as [rest|] eqn:E; [|discriminate].
  apply strip_prefix_Some in E. subst s.
  destruct (take_digits_split rest) as [post [Hsplit Hpost]].
  pose proof (take_digits_all rest) as Hall.
  destruct (take_digits rest) as [|c r] eqn:Et; [discriminate|].
  inversion H; subst ds. exists post. repeat split; try assumption.
  - now rewrite <- Hsplit.
  - discriminate.
Qed.

Lemma match_here_occurs lit ds post :
  ds <> "" -> all_digits ds = true ->
  match_here lit (lit +:+ ds +:+ post) <> None.
Proof.
  intros Hne Hds. unfold match_here. rewrite strip_prefix_app.
  pose proof (take_digits_app_nonempty ds post Hne Hds) as H.
  destruct (take_digits (ds +:+ post)); congruence.
Qed.

Lemma re_search_unfold lit s :
  re_search_digits lit s =
  match match_here lit s with
  | Some ds => Some ds
  | None => match s with
            | String _ s' => re_search_digits lit s'
            | EmptyString => None
            end
  end.
Proof. destruct s; reflexivity. Qed.

(** A failed search: the pattern matches at no offset. *)
Lemma re_search_None lit s :
  re_search_digits lit s = None ->
  forall pre rest, s = pre +:+ rest -> match_here lit rest = None.
Proof.
  intros H pre. revert s H. induction pre as [|c pre IH]; intros s H rest ->.
  - rewrite re_search_unfold in H.
    change ("" +:+ rest) with rest in H.
    destruct (match_here lit rest); [discriminate|reflexivity].
  - rewrite re_search_unfold, app_cons in H.
    destruct (match_here lit (String c (pre +:+ rest))); [discriminate|].
    now apply (IH _ H).
Qed.

(** A successful search: the pattern matches somewhere, and at no
    smaller offset. *)
Lemma re_search_Some lit s ds :
  re_search_digits lit s = Some ds ->
  exists pre post,
    occurs lit s pre ds post /\ starts_with_digit post = false
    /\ forall pre' rest, s = pre' +:+ rest ->
         (String.length pre' < String.length pre)%nat ->
         match_here lit rest = None.
Proof.
  induction s as [|c s IH]; rewrite re_search_unfold; intros H.
  - destruct (match_here lit "") eqn:E; [|discriminate].
    inversion H; subst. apply match_here_Some in E as [post [Ho Hp]].
    exists "", post. repeat split; try apply Ho; try assumption.
    simpl. lia.
  - destruct (match_here lit (String c s)) eqn:E.
    + inversion H; subst. apply match_here_Some in E as [post [Ho Hp]].
      exists "", post. repeat split; try apply Ho; try assumption.
      simpl. lia.
    + destruct (IH H) as [pre [post [[Heq [Hne Hds]] [Hp Hleft]]]].
      exists (String c pre), post. repeat split; try assumption.
      * rewrite app_cons. now f_equal.
      * intros pre' rest Hs Hlen. destruct pre' as [|b pre'].
        -- change ("" +:+ rest) with rest in Hs. now subst rest.
        -- rewrite app_cons in Hs. inversion Hs; subst b.
           apply (Hleft pre' rest); [assumption|]. simpl in Hlen. lia.
Qed.

Lemma re_search_first lit pre : forall s ds post,
  occurs lit s pre ds post -> starts_with_digit post = false ->
  (forall pre' rest, s = pre' +:+ rest ->
     (String.length pre' < String.length pre)%nat ->
     match_here lit rest = None) ->
  re_search_digits lit s = Some ds.
Proof.
  induction pre as [|c pre IH]; intros s ds post [Heq [Hne Hds]] Hp Hleft.
  - change ("" +:+ lit +:+ ds +:+ post) with (lit +:+ ds +:+ post) in Heq.
    rewrite re_search_unfold. subst s. unfold match_here.
    rewrite strip_prefix_app, (take_digits_app _ _ Hds Hp).
    destruct ds; congruence.
  - rewrite app_cons in Heq. rewrite re_search_unfold.
    rewrite (Hleft "" s eq_refl) by (simpl; lia). subst s.
    apply (IH _ ds post); [now repeat split|assumption|].
    intros pre' rest Hs Hlen.
    apply (Hleft (String c pre') rest).
    + rewrite app_cons. now f_equal.
    + simpl. lia.
Qed.

(** [re.search] returns the digits of the first occurrence. *)
Lemma re_search_digits_Some_iff lit s ds :
  re_search_digits lit s = Some ds <->
  exists pre post, first_occurrence lit s pre ds post.
Proof.
  split.
  - intros H. destruct (re_search_Some _ _ _ H)
      as [pre [post [Ho [Hp Hleft]]]].
    exists pre, post. repeat split; try apply Ho; try assumption.
    intros pre' ds' post' [Heq' [Hne' Hds']].
    destruct (Nat.le_gt_cases (String.length pre) (String.length pre'))
      as [Hle|Hlt]; [assumption|].
    exfalso. apply (match_here_occurs lit ds' post' Hne' Hds').
    now apply (Hleft pre').
  - intros [pre [post [Ho [Hp Hfirst]]]].
    apply (re_search_first lit pre s ds post Ho Hp).
    intros pre' rest Hs Hlen.
    destruct (match_here lit rest) as [ds'|] eqn:E; [|reflexivity].
    exfalso. apply match_here_Some in E as [post' [[Heq' [Hne' Hds']] _]].
    change ("" +:+ lit +:+ ds' +:+ post') with (lit +:+ ds' +:+ post') in Heq'.
    assert (Ho' : occurs lit s pre' ds' post')
      by (repeat split; [now rewrite Hs, Heq'|assumption|assumption]).
    apply Hfirst in Ho'. lia.
Qed.

(** [re.search] returns [None] exactly when the pattern occurs nowhere. *)
Lemma re_search_digits_None_iff lit s :
  re_search_digits lit s = None <->
  forall pre ds post, ~ occurs lit s pre ds post.
Proof.
  split.
  - intros H pre ds post [Heq [Hne Hds]].
    apply (match_here_occurs lit ds post Hne Hds).
    now apply (re_search_None lit s H pre).
  - intros H. destruct (re_search_digits lit s) as [ds|] eqn:E; [|reflexivity].
    apply re_search_digits_Some_iff in E as [pre [post [Ho _]]].
    now destruct (H pre ds post).
Qed.

End StringFacts.


(** ** Formatting *)

Section FormatFacts.

Import PyFormat.

Variable d : gmap string PyVal.

Lemma steps_app a : forall st out b,
  steps d st out (a +:+ b) =
  match steps d st out a with
  | Went (st', out') => steps d st' out' b
  | Stopped e => Stopped e
  | Beyond c => Beyond c
  end.
Proof.
  induction a as [|c a IH]; intros st out b; [reflexivity|].
  rewrite app_cons. simpl.
  destruct (step d st out c) as [[st' out']|e|c']; [apply IH|reflexivity..].
Qed.

(** A template that the pass went through leaves it between two
    directives. *)
Lemma interpret_Went_steps t text :
  interpret t d = Went text -> steps d Lit "" t = Went (Lit, text).
Proof.
  unfold interpret. destruct (steps d Lit "" t) as [[st out]|e|c]; simpl.
  - destruct st; intros H; inversion H; reflexivity.
  - discriminate.
  - discriminate.
Qed.

(** Reading a key without parentheses up to its closing parenthesis. *)
Lemma steps_plain_key k : forall acc out rest,
  plain_key k = true ->
  steps d (Key 1 acc) out (k +:+ rest) = steps d (Key 1 (acc +:+ k)) out rest.
Proof.
  induction k as [|c k IH]; intros acc out rest Hk.
  - now rewrite app_nil_r.
  - simpl in Hk. apply andb_true_iff in Hk as [Hc Hk].
    apply andb_true_iff in Hc as [Hopen Hclose].
    apply negb_true_iff in Hopen, Hclose.
    rewrite app_cons. simpl. rewrite Hopen, Hclose.
    rewrite (IH _ _ _ Hk). unfold snoc. now rewrite app_assoc.
Qed.

(** The pass stops with [KeyError] at the first missing key, whatever
    follows it in the template. *)
Lemma interpret_missing t k :
  first_missing_placeholder t d k -> interpret t d = Stopped (KeyError k).
Proof.
  intros [pre [post [text [-> [Hk [Hpre Hnone]]]]]].
  unfold interpret. rewrite steps_app, (interpret_Went_steps _ _ Hpre).
  change ("%(" +:+ k +:+ ")" +:+ post)
    with (String "%" (String "(" (k +:+ ")" +:+ post))).
  simpl. rewrite (steps_plain_key k "" text _ Hk).
  change (")" +:+ post) with (String ")" post).
  change ("" +:+ k) with k. simpl. now rewrite Hnone.
Qed.

End FormatFacts.

(** Formatting stops with [KeyError] at the first missing key. *)
Lemma py_format_missing env d t k :
  first_missing_placeholder t d k -> py_format env t d = Raise (KeyError k).
Proof.
  intros H. unfold py_format. now rewrite (interpret_missing d t k H).
Qed.

(** Text that the pass went through is what formatting gives. *)
Lemma py_format_Went env d t text :
  PyFormat.interpret t d = PyFormat.Went text -> py_format env t d = OK text.
Proof. intros H. unfold py_format. now rewrite H. Qed.


(** ** The launch module *)

Ltac run_monad :=
  unfold bind, lift, ret, raise, emit, print, Popen, communicate, wait_for,
    killWithChilds, close;
  simpl.

(** The monad laws the proofs need. *)
Lemma bind_lift_OK {A B} (a : A) (k : A -> M B) fs :
  bind (lift (OK a)) k fs = k a fs.
Proof. unfold bind, lift. now destruct (k a fs) as [[r fs'] tr]. Qed.

Lemma bind_lift_Raise {A B} e (k : A -> M B) fs :
  bind (lift (Raise e)) k fs = (Raise e, fs, []).
Proof. reflexivity. Qed.

Lemma bind_assoc {A B C} (m : M A) (k : A -> M B) (h : B -> M C) fs :
  bind (bind m k) h fs = bind m (fun a => bind (k a) h) fs.
Proof.
  unfold bind. destruct (m fs) as [[[a|e] fs1] t1]; [|reflexivity].
  destruct (k a fs1) as [[[b|e] fs2] t2]; [|reflexivity].
  destruct (h b fs2) as [[r fs3] t3]. now rewrite List.app_assoc.
Qed.

Section LaunchFacts.

Variable env : Env.

(** *** Remote execution *)

(** What [_launchRemote] does, whatever the remote side prints.  The
    standard error of the helper is not a pipe, so [communicate] hands back
    [None] for it and the test on it is never taken; the standard output
    comes back as bytes, and the search of a [str] pattern in it raises. *)
Lemma _launchRemote_outcome protocol wait fs :
  let cmd := remote_command protocol "run" in
  _launchRemote env protocol wait fs =
  (Raise (TypeError "cannot use a string pattern on a bytes-like object"),
   fs,
   [EvPrint ("** Running remote: " +:+ greenStr env cmd);
    EvSpawn cmd; EvWait cmd]).
Proof. reflexivity. Qed.

Lemma _stopRemote_outcome protocol fs :
  let cmd := remote_command protocol "stop" in
  _stopRemote env protocol fs =
  (OK tt, fs,
   [EvPrint ("** Running remote: " +:+ greenStr env cmd); EvSpawn cmd]).
Proof. reflexivity. Qed.

(** *** Local execution *)

Lemma _stopLocal_outcome_kill protocol fs :
  stop_queue_test protocol = false ->
  _stopLocal env protocol fs = (OK tt, fs, [EvKillTree (getPid protocol)]).
Proof. intros H. unfold _stopLocal. now rewrite H. Qed.

(** [launch] runs the branch that [launch_branch] names. *)
Lemma launch_takes_branch protocol wait stdin stdout stderr fs :
  let finish := fun jobId => run emit (EvSetJobId jobId); ret jobId in
  let command :=
    PYTHON env +:+ " " +:+ pw_join env (APPS env) "pw_protocol_run.py"
    +:+ " " +:+ dq +:+ getProjectPath protocol +:+ dq
    +:+ " " +:+ dq +:+ getDbPath protocol +:+ dq
    +:+ " " +:+ strId protocol in
  launch env protocol wait stdin stdout stderr fs =
  match launch_branch protocol with
  | OK Remote => bind (_launchRemote env protocol wait) finish fs
  | OK LocalQueued =>
      bind (_submit env (getHostConfig protocol)
              (<["JOB_COMMAND" := VStr command]>
                 (getSubmitDict protocol
                  ∪ getQueuesDefault (getHostConfig protocol))))
           finish fs
  | OK LocalDirect => bind (_run env command wait stdin stdout stderr) finish fs
  | Raise e => (Raise e, fs, [])
  end.
Proof.
  intros finish command. unfold launch, launch_branch.
  destruct (_isLocal protocol); [|reflexivity].
  unfold _launchLocal. fold command. rewrite bind_assoc.
  destruct (launch_queue_test protocol) as [[|]|e];
    [rewrite bind_lift_OK ..|]; reflexivity.
Qed.

(** [stop] runs the branch that [stop_branch] names. *)
Lemma stop_takes_branch protocol fs :
  stop env protocol fs =
  match stop_branch protocol with
  | Remote => _stopRemote env protocol fs
  | LocalQueued =>
      bind (lift (py_format env
                    (getCancelCommand (getHostConfig protocol))
                    {["JOB_ID" := VInt (getJobId protocol)]}))
           (fun cancelCmd =>
              run _run env cancelCmd true Inherit Inherit Inherit; ret tt) fs
  | LocalDirect => killWithChilds (getPid protocol) fs
  end.
Proof.
  unfold stop, stop_branch, _stopLocal.
  destruct (_isLocal protocol); [|reflexivity].
  destruct (stop_queue_test protocol); reflexivity.
Qed.

End LaunchFacts.


(** ** The claims of the specification *)

(** *** Locality and the choice of branch *)

(** C8, as the code has it: a protocol is local exactly when its host name
    is ['localhost'], and the branch [launch] takes is a function of the
    host name, the queue flag and the ["QUEUE_FOR_JOBS"] entry of the submit
    dictionary. *)
Theorem locality_is_the_host_name :
  (forall protocol,
     _isLocal protocol = true <-> getHostName protocol = "localhost")
  /\ (forall p q,
        getHostName p = getHostName q ->
        useQueue p = useQueue q ->
        getSubmitDict p !! "QUEUE_FOR_JOBS"
        = getSubmitDict q !! "QUEUE_FOR_JOBS" ->
        launch_branch p = launch_branch q).
Proof.
  split.
  - intros protocol. unfold _isLocal, LOCALHOST. apply String.eqb_eq.
  - intros p q Hname Hqueue Hentry.
    unfold launch_branch, _isLocal, launch_queue_test, dict_get.
    now rewrite Hname, Hqueue, Hentry.
Qed.

Lemma locality_is_the_host_name_witness :
  (_isLocal Scenario.local_with_address = true
   <-> getHostName Scenario.local_with_address = "localhost")
  /\ launch_branch (Scenario.queued true)
     = launch_branch (Scenario.queued false).
Proof.
  split.
  - apply (proj1 locality_is_the_host_name).
  - apply (proj2 locality_is_the_host_name); reflexivity.
Defined.

(** C8, as stated, fails: a protocol whose host name is ['localhost'] is
    local although its host has a network address, and [launch] spawns its
    command on this machine. *)
Lemma local_despite_address :
  getAddress (getHostConfig Scenario.local_with_address) = "cluster.example.org"
  /\ _isLocal Scenario.local_with_address = true
  /\ launch_branch Scenario.local_with_address = OK LocalDirect
  /\ trace (launch (Scenario.env_with "" "" 0) Scenario.local_with_address
              false Inherit Inherit Inherit Scenario.empty_fs)
     = [EvPrint ("** Running command: 'python apps/pw_protocol_run.py "
                 +:+ dq +:+ "/data/projects/demo" +:+ dq +:+ " "
                 +:+ dq +:+ "Runs/000003/logs/run.db" +:+ dq +:+ " 3'");
        EvSpawn ("python apps/pw_protocol_run.py "
                 +:+ dq +:+ "/data/projects/demo" +:+ dq +:+ " "
                 +:+ dq +:+ "Runs/000003/logs/run.db" +:+ dq +:+ " 3");
        EvSetJobId 4242].
Proof. repeat split; vm_compute; reflexivity. Qed.

(** C1, as the code has it: [launch] and [stop] agree on local against
    remote for every protocol, and they agree on the whole branch for a
    protocol that does not ask for the queue, and for one that is not
    scheduled and whose ["QUEUE_FOR_JOBS"] entry is ["N"]. *)
Theorem launch_and_stop_branches :
  forall protocol,
    (launch_branch protocol = OK Remote <-> stop_branch protocol = Remote)
    /\ (useQueue protocol = false
        \/ (isScheduled protocol = false
            /\ getSubmitDict protocol !! "QUEUE_FOR_JOBS" = Some (VStr "N")) ->
        launch_branch protocol = OK (stop_branch protocol)).
Proof.
  intros protocol.
  unfold launch_branch, stop_branch, launch_queue_test, stop_queue_test,
    dict_get.
  split.
  - destruct (_isLocal protocol); [|tauto].
    destruct (useQueue protocol); simpl.
    + destruct (getSubmitDict protocol !! "QUEUE_FOR_JOBS") as [v|]; simpl.
      * destruct (py_eq_str v "N"), (isScheduled protocol);
          split; discriminate.
      * destruct (isScheduled protocol); split; discriminate.
    + split; discriminate.
  - destruct (_isLocal protocol); [|reflexivity].
    intros [Hq|[Hs Hn]].
    + now rewrite Hq.
    + rewrite Hs, Hn. now destruct (useQueue protocol).
Qed.

Lemma launch_and_stop_branches_witness :
  launch_branch (Scenario.queued false)
  = OK (stop_branch (Scenario.queued false)).
Proof.
  apply (proj2 (launch_and_stop_branches (Scenario.queued false))).
  right. split; reflexivity.
Defined.

(** C1, as stated, fails: for a protocol that asks for the queue and is in
    the scheduled state, [launch] takes the queue branch and submits a
    script, while [stop], with the same host and flags, takes the direct
    branch and kills a process tree. *)
Lemma scheduled_launch_and_stop_differ :
  launch_branch (Scenario.queued true) = OK LocalQueued
  /\ stop_branch (Scenario.queued true) = LocalDirect
  /\ In (EvSpawn "qsub logs/3.job")
        (trace (launch (Scenario.env_with "your job 555" "" 0)
                  (Scenario.queued true) false Inherit Inherit Inherit
                  Scenario.logs_fs))
  /\ trace (stop (Scenario.env_with "" "" 0) (Scenario.queued true)
              Scenario.logs_fs)
     = [EvKillTree 77].
Proof.
  repeat split; try (vm_compute; reflexivity).
  vm_compute. do 5 right. now left.
Qed.

(** C5, as the code has it: stopping a local protocol that asked for the
    queue and is still scheduled spawns no cancellation command; it kills
    the process tree of the protocol's pid. *)
Theorem stop_scheduled_kills :
  forall env protocol fs,
    _isLocal protocol = true ->
    useQueue protocol = true ->
    isScheduled protocol = true ->
    stop env protocol fs = (OK tt, fs, [EvKillTree (getPid protocol)]).
Proof.
  intros env protocol fs Hlocal Hqueue Hsched. unfold stop. rewrite Hlocal.
  apply _stopLocal_outcome_kill. unfold stop_queue_test.
  now rewrite Hqueue, Hsched.
Qed.

Lemma stop_scheduled_kills_witness :
  stop (Scenario.env_with "" "" 0) (Scenario.queued true) Scenario.logs_fs
  = (OK tt, Scenario.logs_fs, [EvKillTree 77]).
Proof.
  apply (stop_scheduled_kills (Scenario.env_with "" "" 0)
           (Scenario.queued true) Scenario.logs_fs); reflexivity.
Defined.

(** C5, as stated, fails: the stop of a scheduled, queued, local protocol
    is not a no-op, its trace holds a process-tree kill. *)
Lemma stop_scheduled_is_not_a_noop :
  _isLocal (Scenario.queued true) = true
  /\ useQueue (Scenario.queued true) = true
  /\ isScheduled (Scenario.queued true) = true
  /\ trace (stop (Scenario.env_with "" "" 0) (Scenario.queued true)
              Scenario.logs_fs) <> []
  /\ In (EvKillTree 77)
        (trace (stop (Scenario.env_with "" "" 0) (Scenario.queued true)
                  Scenario.logs_fs)).
Proof.
  repeat split; try reflexivity.
  - vm_compute. discriminate.
  - vm_compute. now left.
Qed.

(** *** The remote dispatcher *)

(** C2: the code does not do what the claim says.  The remote helper
    writes to its standard error, which is no pipe, so [_launchRemote] never
    sees the text: it goes on to its search and ends as it ends when the
    standard error is empty, with the [TypeError] of that search.  No
    exception carries what the helper wrote. *)
Theorem launchRemote_ignores_stderr :
  let stdout := "Scipion remote jobid: 987" +:+ nl in
  let env := Scenario.env_with stdout "permission denied" 0 in
  let quiet := Scenario.env_with stdout "" 0 in
  pr_stderr (os_exec env (remote_command Scenario.remote "run"))
  = "permission denied"
  /\ result (_launchRemote env Scenario.remote false Scenario.empty_fs)
     = Raise (TypeError "cannot use a string pattern on a bytes-like object")
  /\ _launchRemote env Scenario.remote false Scenario.empty_fs
     = _launchRemote quiet Scenario.remote false Scenario.empty_fs.
Proof. repeat split. Qed.

(** C4: the code does not do what the claim says.  The standard output of
    the helper comes back as bytes and line 178 searches a [str] pattern in
    it: the search raises [TypeError] on every run, so [_launchRemote]
    returns no job id, neither the one after the marker nor
    [UNKNOWN_JOBID], and the exception it raises does not carry the
    standard output. *)
Theorem launchRemote_raises_on_bytes :
  (forall env protocol wait fs,
     result (_launchRemote env protocol wait fs)
     = Raise (TypeError "cannot use a string pattern on a bytes-like object"))
  /\ let env := Scenario.env_with ("Scipion remote jobid: 987" +:+ nl) "" 0 in
     let proc := os_exec env (remote_command Scenario.remote "run") in
     pr_stdout proc = "Scipion remote jobid: 987" +:+ nl
     /\ pr_stderr proc = ""
     /\ launch env Scenario.remote false Inherit Inherit Inherit
               Scenario.empty_fs
        = (Raise (TypeError
                    "cannot use a string pattern on a bytes-like object"),
           Scenario.empty_fs,
           [EvPrint ("** Running remote: "
                     +:+ remote_command Scenario.remote "run");
            EvSpawn (remote_command Scenario.remote "run");
            EvWait (remote_command Scenario.remote "run")]).
Proof.
  split.
  - intros env protocol wait fs. now rewrite _launchRemote_outcome.
  - repeat split.
Qed.

(** C9, as the code has it: a remote launch waits for the helper it
    spawned; a remote stop spawns the helper and returns without waiting
    for it. *)
Theorem remote_dispatch_waiting :
  forall env protocol wait fs,
    all_waited (trace (_launchRemote env protocol wait fs)) = true
    /\ trace (_launchRemote env protocol wait fs)
       = [EvPrint ("** Running remote: "
                   +:+ greenStr env (remote_command protocol "run"));
          EvSpawn (remote_command protocol "run");
          EvWait (remote_command protocol "run")]
    /\ trace (_stopRemote env protocol fs)
       = [EvPrint ("** Running remote: "
                   +:+ greenStr env (remote_command protocol "stop"));
          EvSpawn (remote_command protocol "stop")].
Proof.
  intros env protocol wait fs. rewrite _launchRemote_outcome.
  unfold trace. simpl. rewrite String.eqb_refl. repeat split.
Qed.

(** C9, as stated, fails: the remote stop returns with its helper spawned
    and not waited for. *)
Lemma remote_stop_does_not_wait :
  all_waited (trace (stop (Scenario.env_with "" "" 0) Scenario.remote
                       Scenario.empty_fs)) = false.
Proof. vm_compute. reflexivity. Qed.


(** *** The queue adapter *)

Arguments PyStr.bytes_repr : simpl never.
Arguments PyStr.re_search_digits : simpl never.

Section SubmitFacts.

Variable env : Env.
Variable hostConfig : HostConfig.
Variable submitDict : gmap string PyVal.
Variable fs : FS.

(** The file system once the script [data] has been persisted at [path]. *)
Let persisted (path data : string) : FS :=
  mkFS (list_to_set (dirs_upto "" (PyStr.dirname path)) ∪ fs_dirs fs)
       (<[path := data]> (<[path := ""]> (fs_files fs))).

Let persist_trace (path data : string) : list event :=
  [EvOpenW path; EvMakePath path; EvWrite path data; EvClose path].

(** A script template with a missing key: nothing is written, nothing is
    spawned. *)
Lemma _submit_template_fails e :
  py_format env (getSubmitTemplate hostConfig) submitDict = Raise e ->
  _submit env hostConfig submitDict fs = (Raise e, fs, []).
Proof. intros H. unfold _submit. now rewrite H. Qed.

Lemma _submit_no_script text :
  py_format env (getSubmitTemplate hostConfig) submitDict = OK text ->
  submitDict !! "JOB_SCRIPT" = None ->
  _submit env hostConfig submitDict fs
  = (Raise (KeyError "JOB_SCRIPT"), fs, []).
Proof.
  intros Ht Hs. unfold _submit, dict_get. now rewrite Ht, Hs.
Qed.

Lemma _submit_script_not_a_path text n :
  py_format env (getSubmitTemplate hostConfig) submitDict = OK text ->
  submitDict !! "JOB_SCRIPT" = Some (VInt n) ->
  _submit env hostConfig submitDict fs
  = (Raise (TypeError "not a path"), fs, []).
Proof.
  intros Ht Hs. unfold _submit, dict_get. now rewrite Ht, Hs.
Qed.

(** The file is opened before [makeFilePath] runs: a script whose directory
    does not exist yet cannot be persisted. *)
Lemma _submit_open_fails text path :
  py_format env (getSubmitTemplate hostConfig) submitDict = OK text ->
  submitDict !! "JOB_SCRIPT" = Some (VStr path) ->
  can_open fs path = false ->
  _submit env hostConfig submitDict fs = (Raise (IOError path), fs, []).
Proof.
  intros Ht Hs Ho. unfold _submit, dict_get. rewrite Ht, Hs.
  rewrite bind_lift_OK. simpl. rewrite bind_lift_OK.
  unfold bind at 1. unfold open_w. now rewrite Ho.
Qed.

(** A submission command with a missing key: the script is on disk,
    nothing is spawned. *)
Lemma _submit_command_fails text path e :
  py_format env (getSubmitTemplate hostConfig) submitDict = OK text ->
  submitDict !! "JOB_SCRIPT" = Some (VStr path) ->
  can_open fs path = true ->
  py_format env (getSubmitCommand hostConfig) submitDict = Raise e ->
  _submit env hostConfig submitDict fs
  = (Raise e, persisted path (text +:+ nl +:+ nl),
     persist_trace path (text +:+ nl +:+ nl)).
Proof.
  intros Ht Hs Ho Hc. unfold _submit, dict_get. rewrite Ht, Hs, Hc.
  rewrite bind_lift_OK. simpl. rewrite bind_lift_OK.
  unfold bind, open_w, makeFilePath, write, close, emit, lift.
  rewrite Ho. simpl. rewrite lookup_insert_eq. reflexivity.
Qed.

(** The whole run of a submission that reaches the queue. *)
Lemma _submit_outcome text path command :
  py_format env (getSubmitTemplate hostConfig) submitDict = OK text ->
  submitDict !! "JOB_SCRIPT" = Some (VStr path) ->
  can_open fs path = true ->
  py_format env (getSubmitCommand hostConfig) submitDict = OK command ->
  let data := text +:+ nl +:+ nl in
  let proc := os_exec env command in
  let out := pr_stdout proc in
  let spawned :=
    (persist_trace path data
     ++ [EvPrint ("** Submitting to queue: '" +:+ greenStr env command +:+ "'");
         EvSpawn command; EvWait command])%list in
  _submit env hostConfig submitDict fs =
  match Z.eqb (pr_returncode proc) 0,
        PyStr.re_search_digits "" (PyStr.bytes_repr out) with
  | true, Some digits =>
      (OK (PyStr.int_of_digits digits), persisted path data,
       (spawned
        ++ [EvPrint ("Launched job with id "
                     +:+ PyStr.str_of_int (PyStr.int_of_digits digits))])%list)
  | _, _ =>
      match PyStr.decode out with
      | Some reason =>
          (OK (UNKNOWN_JOBID env), persisted path data,
           (spawned
            ++ [EvPrint ("Couldn't submit to queue for reason: "
                         +:+ redStr env reason +:+ " ")])%list)
      | None => (Raise (UnicodeDecodeError out), persisted path data, spawned)
      end
  end.
Proof.
  intros Ht Hs Ho Hc data proc out spawned.
  unfold _submit, dict_get. rewrite Ht, Hs, Hc.
  rewrite bind_lift_OK. simpl. rewrite bind_lift_OK.
  unfold bind, open_w, makeFilePath, write, close, emit, lift, print, Popen,
    communicate, ret, raise.
  rewrite Ho. simpl. rewrite lookup_insert_eq. simpl.
  fold proc. fold out. fold data.
  destruct (Z.eqb (pr_returncode proc) 0),
    (PyStr.re_search_digits "" (PyStr.bytes_repr out)), (PyStr.decode out);
    reflexivity.
Qed.

End SubmitFacts.







(** C6: the code does not do what the claim says.  The script is to go
    into a directory that does not exist yet: [open] runs before
    [makeFilePath], so [_submit] stops with [IOError]; no directory is
    created and no file is written. *)
Theorem submit_opens_before_creating_directories :
  let env := Scenario.env_with "your job 555" "" 0 in
  let path := "/tmp/run/logs/3.job" in
  let o := _submit env Scenario.torque (Scenario.job_dict path)
                   Scenario.only_tmp in
  py_format env (getSubmitTemplate Scenario.torque)
                     (Scenario.job_dict path)
  = OK "python pw_protocol_run.py"
  /\ parent_exists Scenario.only_tmp path = false
  /\ result o = Raise (IOError path)
  /\ trace o = []
  /\ fs_files (final_fs o) !! path = None.
Proof. repeat split; vm_compute; reflexivity. Qed.

(** With the directory in place the script is written with two line ends
    after it, and submitting again overwrites the file with the same text. *)
Lemma submit_twice_same_file :
  let env := Scenario.env_with "your job 555" "" 0 in
  let d := Scenario.job_dict "logs/3.job" in
  let once := _submit env Scenario.torque d Scenario.logs_fs in
  let twice := _submit env Scenario.torque d (final_fs once) in
  result once = OK 555 /\ result twice = OK 555
  /\ fs_files (final_fs once) !! "logs/3.job"
     = Some ("python pw_protocol_run.py" +:+ nl +:+ nl)
  /\ fs_files (final_fs twice) !! "logs/3.job"
     = Some ("python pw_protocol_run.py" +:+ nl +:+ nl).
Proof. repeat split; vm_compute; reflexivity. Qed.

(** C3: the code does not do what the claim says.  The submission command
    exits with status 1 and prints one byte that the default codec cannot
    decode and that is no digit: [_submit] raises [UnicodeDecodeError] from
    the line that reports the failure, and returns no job id. *)
Theorem submit_raises_on_undecodable_output :
  let env := Scenario.env_with Scenario.byte_ff "" 1 in
  let o := _submit env Scenario.torque (Scenario.job_dict "logs/3.job")
                   Scenario.logs_fs in
  PyStr.has_digit Scenario.byte_ff = false
  /\ result o = Raise (UnicodeDecodeError Scenario.byte_ff)
  /\ forall line, ~ In (EvPrint ("Couldn't submit to queue for reason: "
                             +:+ line)) (trace o).
Proof.
  repeat split; try (vm_compute; reflexivity).
  intros line H. vm_compute in H. intuition discriminate.
Qed.

(** *** What [_submit] reads in the output of the submission command *)

Section ReprFacts.

Import PyStr.

Lemma search_cons_digit c s :
  is_digit c = true ->
  re_search_digits "" (String c s) = Some (String c (take_digits s)).
Proof.
  intros Hc. rewrite re_search_unfold. unfold match_here. simpl.
  now rewrite Hc.
Qed.

Lemma search_cons_other c s :
  is_digit c = false ->
  re_search_digits "" (String c s) = re_search_digits "" s.
Proof.
  intros Hc. rewrite re_search_unfold. unfold match_here. simpl.
  now rewrite Hc.
Qed.

(** A printable byte is written as it is, or behind a backslash when it is
    the quote or a backslash. *)
Lemma escape_byte_printable quote c :
  is_printable c = true ->
  escape_byte quote c =
  if Ascii.eqb c quote || Ascii.eqb c "\"
  then String "\" (String c "") else String c "".
Proof.
  unfold is_printable, escape_byte. intros H.
  apply andb_true_iff in H as [Hlo Hhi].
  apply N.leb_le in Hlo. apply N.ltb_lt in Hhi.
  destruct (Ascii.eqb c quote || Ascii.eqb c "\"); [reflexivity|].
  destruct (Ascii.eqb_spec c "009") as [->|_]; [simpl in Hlo; lia|].
  destruct (Ascii.eqb_spec c "010") as [->|_]; [simpl in Hlo; lia|].
  destruct (Ascii.eqb_spec c "013") as [->|_]; [simpl in Hlo; lia|].
  replace (N_of_ascii c <? 32)%N with false by (symmetry; apply N.ltb_ge; lia).
  replace (127 <=? N_of_ascii c)%N with false
    by (symmetry; apply N.leb_gt; lia).
  reflexivity.
Qed.

Lemma digit_is_not_escaped quote c :
  is_digit quote = false -> is_digit c = true ->
  Ascii.eqb c quote || Ascii.eqb c "\" = false.
Proof.
  intros Hq Hc. apply orb_false_iff. split.
  - destruct (Ascii.eqb_spec c quote) as [->|]; [congruence|reflexivity].
  - destruct (Ascii.eqb_spec c "\") as [->|]; [discriminate|reflexivity].
Qed.

Lemma escaped_is_no_digit quote c :
  is_digit quote = false ->
  Ascii.eqb c quote || Ascii.eqb c "\" = true -> is_digit c = false.
Proof.
  intros Hq H. apply orb_true_iff in H as [H|H].
  - apply Ascii.eqb_eq in H. now subst.
  - apply Ascii.eqb_eq in H. now subst.
Qed.

Lemma app_single c s : String c "" +:+ s = String c s.
Proof. reflexivity. Qed.

Lemma app_pair a b s : String a (String b "") +:+ s = String a (String b s).
Proof. reflexivity. Qed.

Variable quote : ascii.
Hypothesis quote_no_digit : is_digit quote = false.

Lemma take_digits_escaped s tail :
  all_printable s = true -> starts_with_digit tail = false ->
  take_digits (escape_bytes quote s +:+ tail) = take_digits s.
Proof.
  intros Hs Htail. induction s as [|c s IH].
  - destruct tail as [|b tail]; [reflexivity|].
    simpl in *. now rewrite Htail.
  - simpl in Hs. apply andb_true_iff in Hs as [Hc Hs].
    cbn [escape_bytes]. rewrite (escape_byte_printable quote c Hc).
    destruct (is_digit c) eqn:Hd.
    + rewrite (digit_is_not_escaped quote c quote_no_digit Hd).
      rewrite app_assoc, app_single. simpl. rewrite Hd. f_equal.
      now apply IH.
    + destruct (Ascii.eqb c quote || Ascii.eqb c "\").
      * rewrite app_assoc, app_pair. simpl. now rewrite Hd.
      * rewrite app_assoc, app_single. simpl. now rewrite Hd.
Qed.

Lemma search_escaped s tail :
  all_printable s = true -> starts_with_digit tail = false ->
  re_search_digits "" tail = None ->
  re_search_digits "" (escape_bytes quote s +:+ tail) = re_search_digits "" s.
Proof.
  intros Hs Htail Hnone. induction s as [|c s IH]; [exact Hnone|].
  simpl in Hs. apply andb_true_iff in Hs as [Hc Hs].
  cbn [escape_bytes]. rewrite (escape_byte_printable quote c Hc).
  destruct (is_digit c) eqn:Hd.
  - rewrite (digit_is_not_escaped quote c quote_no_digit Hd).
    rewrite app_assoc, app_single, !(search_cons_digit c _ Hd).
    now rewrite (take_digits_escaped s tail Hs Htail).
  - rewrite (search_cons_other c s Hd).
    destruct (Ascii.eqb c quote || Ascii.eqb c "\").
    + rewrite app_assoc, app_pair, (search_cons_other "\" _ eq_refl),
        (search_cons_other c _ Hd).
      now apply IH.
    + rewrite app_assoc, app_single, (search_cons_other c _ Hd).
      now apply IH.
Qed.

End ReprFacts.

(** In the [repr] of printable bytes the digits are those of the bytes. *)
Lemma search_bytes_repr_printable out :
  PyStr.all_printable out = true ->
  PyStr.re_search_digits "" (PyStr.bytes_repr out)
  = PyStr.re_search_digits "" out.
Proof.
  intros Hp. unfold PyStr.bytes_repr.
  assert (Hq : PyStr.is_digit (PyStr.repr_quote out) = false)
    by (unfold PyStr.repr_quote; now destruct (_ && _)).
  rewrite (search_cons_other "b" _ eq_refl), (search_cons_other _ _ Hq).
  apply (search_escaped _ Hq out _ Hp); [exact Hq|].
  now rewrite (search_cons_other _ _ Hq).
Qed.

(** Bytes below 128 are valid UTF-8. *)
Lemma all_ascii_utf8_valid s :
  PyStr.all_ascii s = true -> PyStr.utf8_valid s = true.
Proof.
  unfold PyStr.utf8_valid.
  assert (H : PyStr.all_ascii s = true ->
              PyStr.utf8_run PyStr.Between s = Some PyStr.Between).
  { induction s as [|c s IH]; [reflexivity|].
    simpl. intros Hs. apply andb_true_iff in Hs as [Hc Hs].
    unfold PyStr.utf8_step. unfold PyStr.is_ascii_byte in Hc.
    rewrite Hc. now apply IH. }
  intros Hs. now rewrite (H Hs).
Qed.

(** X15: when the submission command exits with status 0, [_submit]
    returns the first run of digits of [str(out)], the [repr] of the bytes
    the command wrote; when these bytes are printable ASCII, that is the
    first run of digits of the output itself. *)
Theorem submit_returns_first_digits :
  forall env hostConfig submitDict fs text path command,
    py_format env (getSubmitTemplate hostConfig) submitDict = OK text ->
    submitDict !! "JOB_SCRIPT" = Some (VStr path) ->
    can_open fs path = true ->
    py_format env (getSubmitCommand hostConfig) submitDict = OK command ->
    pr_returncode (os_exec env command) = 0 ->
    let out := pr_stdout (os_exec env command) in
    (forall pre ds post,
       first_occurrence "" (PyStr.bytes_repr out) pre ds post ->
       result (_submit env hostConfig submitDict fs)
       = OK (PyStr.int_of_digits ds))
    /\ (PyStr.all_printable out = true ->
        forall pre ds post,
          first_occurrence "" out pre ds post ->
          result (_submit env hostConfig submitDict fs)
          = OK (PyStr.int_of_digits ds)).
Proof.
  intros env hostConfig submitDict fs text path command Ht Hs Ho Hc Hrc out.
  rewrite (_submit_outcome _ _ _ _ _ _ _ Ht Hs Ho Hc). cbv zeta.
  fold out. rewrite Hrc. split.
  - intros pre ds post Hfirst.
    assert (H : PyStr.re_search_digits "" (PyStr.bytes_repr out) = Some ds)
      by (apply re_search_digits_Some_iff; eauto).
    now rewrite H.
  - intros Hp pre ds post Hfirst.
    assert (H : PyStr.re_search_digits "" out = Some ds)
      by (apply re_search_digits_Some_iff; eauto).
    now rewrite (search_bytes_repr_printable out Hp), H.
Qed.

(** X16: when the command fails, or [str(out)] holds no digit, and the
    bytes it wrote are valid UTF-8, [_submit] prints them as a warning and
    returns [UNKNOWN_JOBID]; a status other than 0 overrides any digit. *)
Theorem submit_soft_fails :
  forall env hostConfig submitDict fs text path command,
    py_format env (getSubmitTemplate hostConfig) submitDict = OK text ->
    submitDict !! "JOB_SCRIPT" = Some (VStr path) ->
    can_open fs path = true ->
    py_format env (getSubmitCommand hostConfig) submitDict = OK command ->
    let out := pr_stdout (os_exec env command) in
    pr_returncode (os_exec env command) <> 0
    \/ (forall pre ds post, ~ occurs "" (PyStr.bytes_repr out) pre ds post)
    \/ (PyStr.all_printable out = true
        /\ forall pre ds post, ~ occurs "" out pre ds post) ->
    PyStr.utf8_valid out = true ->
    result (_submit env hostConfig submitDict fs) = OK (UNKNOWN_JOBID env)
    /\ In (EvPrint ("Couldn't submit to queue for reason: "
                    +:+ redStr env out +:+ " "))
          (trace (_submit env hostConfig submitDict fs)).
Proof.
  intros env hostConfig submitDict fs text path command Ht Hs Ho Hc out
    Hfail Hvalid.
  rewrite (_submit_outcome _ _ _ _ _ _ _ Ht Hs Ho Hc). cbv zeta.
  fold out. unfold PyStr.decode. rewrite Hvalid.
  assert (Hbranch :
    Z.eqb (pr_returncode (os_exec env command)) 0 = false
    \/ PyStr.re_search_digits "" (PyStr.bytes_repr out) = None).
  { destruct Hfail as [Hrc|[Hnone|[Hp Hnone]]].
    - left. now apply Z.eqb_neq.
    - right. now apply re_search_digits_None_iff.
    - right. rewrite (search_bytes_repr_printable out Hp).
      now apply re_search_digits_None_iff. }
  assert (Hlast : forall l (e : event), In e (l ++ [e])%list)
    by (intros l e; apply in_or_app; right; now left).
  destruct Hbranch as [-> | ->].
  - split; [reflexivity|apply Hlast].
  - destruct (Z.eqb _ 0); (split; [reflexivity|apply Hlast]).
Qed.

(** ** The examples of the specification *)

Example parse_queue_output :
  PyStr.bytes_repr ("Launched job with id 12345" +:+ nl)
  = "b'Launched job with id 12345\n'"
  /\ re_search "" (Str (PyStr.bytes_repr ("Launched job with id 12345" +:+ nl)))
     = OK (Some "12345")
  /\ PyStr.int_of_digits "12345" = 12345.
Proof. repeat split. Qed.

(** Digits that [repr] writes for a byte count as digits of the output. *)
Example parse_escaped_output :
  let colour := String "027" "[32mjob 12" in
  PyStr.bytes_repr colour = "b'\x1b[32mjob 12'"
  /\ result (_submit (Scenario.env_with colour "" 0) Scenario.torque
               (Scenario.job_dict "logs/3.job") Scenario.logs_fs)
     = OK 1.
Proof. split; vm_compute; reflexivity. Qed.

Example path_functions :
  PyStr.dirname "/tmp/run/job.sh" = "/tmp/run"
  /\ PyStr.dirname "job.sh" = ""
  /\ PyStr.dirname "/job.sh" = "/"
  /\ PyStr.basename "/data/projects/demo" = "demo".
Proof. repeat split. Qed.

(** Scenario B: a local protocol that asks for the queue is submitted with
    [qsub], gets the id the scheduler prints, and is stopped with [qdel]. *)
Example scenario_queue :
  let env := Scenario.env_with "your job 555 ..." "" 0 in
  result (launch env (Scenario.queued false) false Inherit Inherit Inherit
            Scenario.logs_fs) = OK 555
  /\ trace (stop env (Scenario.queued false) Scenario.logs_fs)
     = [EvPrint "** Running command: 'qdel 555'";
        EvSpawn "qdel 555"; EvWait "qdel 555"].
Proof. split; vm_compute; reflexivity. Qed.

(** Scenario C: a protocol on another host is launched through [ssh]; the
    helper is run and waited for, and the search of its output raises. *)
Example scenario_remote :
  let env := Scenario.env_with "Scipion remote jobid: 42" "" 0 in
  launch env Scenario.remote false Inherit Inherit Inherit Scenario.empty_fs
  = (Raise (TypeError "cannot use a string pattern on a bytes-like object"),
     Scenario.empty_fs,
     [EvPrint ("** Running remote: ssh cluster.example.org "
               +:+ "'/opt/scipion/scipion runprotocol pw_protocol_remote.py "
               +:+ "run demo Runs/000003/logs/run.db 3' ");
      EvSpawn ("ssh cluster.example.org "
               +:+ "'/opt/scipion/scipion runprotocol pw_protocol_remote.py "
               +:+ "run demo Runs/000003/logs/run.db 3' ");
      EvWait ("ssh cluster.example.org "
              +:+ "'/opt/scipion/scipion runprotocol pw_protocol_remote.py "
              +:+ "run demo Runs/000003/logs/run.db 3' ")]).
Proof. vm_compute. reflexivity. Qed.

(** * Further properties of the module *)

(** ** Formatting plain text and one placeholder *)

Lemma snoc_app s c t : PyFormat.snoc s c +:+ t = s +:+ String c t.
Proof. unfold PyFormat.snoc. now rewrite app_assoc. Qed.

(** Text without a directive is copied. *)
Lemma steps_no_percent d t : forall out,
  no_percent t = true ->
  PyFormat.steps d PyFormat.Lit out t
  = PyFormat.Went (PyFormat.Lit, out +:+ t).
Proof.
  induction t as [|c t IH]; intros out H.
  - now rewrite app_nil_r.
  - simpl in H. apply andb_true_iff in H as [Hc Ht].
    apply negb_true_iff in Hc. simpl. rewrite Hc.
    rewrite (IH _ Ht). now rewrite snoc_app.
Qed.

Lemma interpret_no_percent d t :
  no_percent t = true -> PyFormat.interpret t d = PyFormat.Went t.
Proof.
  intros H. unfold PyFormat.interpret.
  now rewrite (steps_no_percent d t "" H).
Qed.

(** One [%(k)s] between two plain texts is replaced by [str(d[k])]. *)
Lemma py_format_substitute env d pre k post v :
  no_percent pre = true -> no_percent post = true ->
  PyFormat.plain_key k = true -> d !! k = Some v ->
  py_format env (pre +:+ "%(" +:+ k +:+ ")s" +:+ post) d
  = OK (pre +:+ py_str v +:+ post).
Proof.
  intros Hpre Hpost Hk Hv. apply py_format_Went. unfold PyFormat.interpret.
  rewrite steps_app, (steps_no_percent d pre "" Hpre).
  change ("%(" +:+ k +:+ ")s" +:+ post)
    with (String "%" (String "(" (k +:+ ")s" +:+ post))).
  simpl. rewrite (steps_plain_key d k "" pre _ Hk).
  change (")s" +:+ post) with (String ")" (String "s" post)).
  change ("" +:+ k) with k. simpl. rewrite Hv. simpl.
  rewrite (steps_no_percent d post _ Hpost). simpl.
  now rewrite app_assoc.
Qed.

(** ** Stopping *)

(** X10: The cancel command of a host whose template is plain text around one
    [%(JOB_ID)s] is that text around the decimal job id; [stop] spawns it,
    waits for it, and kills nothing. *)
Theorem stop_queued_cancels :
  forall env protocol fs pre post,
    _isLocal protocol = true ->
    useQueue protocol = true ->
    isScheduled protocol = false ->
    getCancelCommand (getHostConfig protocol)
    = pre +:+ "%(JOB_ID)s" +:+ post ->
    no_percent pre = true -> no_percent post = true ->
    let cmd := pre +:+ PyStr.str_of_int (getJobId protocol) +:+ post in
    stop env protocol fs = (OK tt, fs, run_trace env cmd true).
Proof.
  intros env protocol fs pre post Hlocal Hqueue Hsched Htpl Hpre Hpost cmd.
  rewrite stop_takes_branch. unfold stop_branch, stop_queue_test.
  rewrite Hlocal, Hqueue, Hsched. simpl. rewrite Htpl.
  change (pre +:+ "%(JOB_ID)s" +:+ post)
    with (pre +:+ "%(" +:+ "JOB_ID" +:+ ")s" +:+ post).
  rewrite (py_format_substitute env _ pre "JOB_ID" post
             (VInt (getJobId protocol)) Hpre Hpost eq_refl)
    by apply lookup_singleton_eq.
  rewrite bind_lift_OK. reflexivity.
Qed.

Lemma stop_queued_cancels_witness :
  let env := Scenario.env_with "" "" 0 in
  stop env (Scenario.queued false) Scenario.logs_fs
  = (OK tt, Scenario.logs_fs,
     [EvPrint "** Running command: 'qdel 555'";
      EvSpawn "qdel 555"; EvWait "qdel 555"]).
Proof.
  intros env.
  apply (stop_queued_cancels env (Scenario.queued false) Scenario.logs_fs
           "qdel " ""); reflexivity.
Defined.

(** X11: The cancel template is formatted against a dictionary that holds
    ["JOB_ID"] and nothing else: a reference to any other key, after plain
    text, stops [stop] with [KeyError] before anything is spawned. *)
Theorem stop_cancel_template_other_key :
  forall env protocol fs pre k post,
    _isLocal protocol = true ->
    useQueue protocol = true ->
    isScheduled protocol = false ->
    getCancelCommand (getHostConfig protocol)
    = pre +:+ "%(" +:+ k +:+ ")" +:+ post ->
    no_percent pre = true ->
    PyFormat.plain_key k = true ->
    k <> "JOB_ID" ->
    stop env protocol fs = (Raise (KeyError k), fs, []).
Proof.
  intros env protocol fs pre k post Hlocal Hqueue Hsched Htpl Hpre Hk Hne.
  rewrite stop_takes_branch. unfold stop_branch, stop_queue_test.
  rewrite Hlocal, Hqueue, Hsched. simpl.
  rewrite (py_format_missing env _ _ k); [reflexivity|].
  exists pre, post, pre. repeat split; try assumption.
  - now apply interpret_no_percent.
  - apply lookup_singleton_ne. congruence.
Qed.

Lemma stop_cancel_template_other_key_witness :
  stop (Scenario.env_with "" "" 0) Cases.cancel_names_queue Scenario.logs_fs
  = (Raise (KeyError "JOB_QUEUE"), Scenario.logs_fs, []).
Proof.
  apply (stop_cancel_template_other_key (Scenario.env_with "" "" 0)
           Cases.cancel_names_queue Scenario.logs_fs
           "qdel -q " "JOB_QUEUE" "s %(JOB_ID)s"); try reflexivity.
  discriminate.
Defined.

(** X12: [stop] leaves every file and directory as it was, and records no job
    id, whatever the protocol. *)
Theorem stop_keeps_files :
  forall env protocol fs,
    final_fs (stop env protocol fs) = fs
    /\ existsb sets_job_id (trace (stop env protocol fs)) = false.
Proof.
  intros env protocol fs. rewrite stop_takes_branch.
  destruct (stop_branch protocol).
  - split; reflexivity.
  - destruct (py_format env (getCancelCommand (getHostConfig protocol))
                {["JOB_ID" := VInt (getJobId protocol)]}) as [cmd|e].
    + rewrite bind_lift_OK. split; reflexivity.
    + split; reflexivity.
  - split; reflexivity.
Qed.

(** ** Launching *)

(** The runs of [_submit], by how far they get. *)
Lemma _submit_inv env hostConfig submitDict fs :
  (exists e, _submit env hostConfig submitDict fs = (Raise e, fs, []))
  \/ (exists text path,
        py_format env (getSubmitTemplate hostConfig) submitDict = OK text
        /\ submitDict !! "JOB_SCRIPT" = Some (VStr path)
        /\ can_open fs path = true
        /\ ((exists e,
               py_format env (getSubmitCommand hostConfig) submitDict
               = Raise e)
            \/ (exists command,
                  py_format env (getSubmitCommand hostConfig) submitDict
                  = OK command))).
Proof.
  destruct (py_format env (getSubmitTemplate hostConfig) submitDict)
    as [text|e] eqn:Ht.
  2: { left. exists e. now apply _submit_template_fails. }
  destruct (submitDict !! "JOB_SCRIPT") as [[path|n]|] eqn:Hs.
  2: { left. eexists. now apply (_submit_script_not_a_path _ _ _ _ text n). }
  2: { left. eexists. now apply (_submit_no_script _ _ _ _ text). }
  destruct (can_open fs path) eqn:Ho.
  2: { left. eexists. now apply (_submit_open_fails _ _ _ _ text path). }
  right. exists text, path. repeat split; try assumption.
  destruct (py_format env (getSubmitCommand hostConfig) submitDict);
    eauto.
Qed.

(** [_submit] records no job id. *)
Lemma _submit_sets_no_job_id env hostConfig submitDict fs :
  existsb sets_job_id (trace (_submit env hostConfig submitDict fs)) = false.
Proof.
  destruct (_submit_inv env hostConfig submitDict fs)
    as [[e ->]|[text [path [Ht [Hs [Ho [[e Hc]|[command Hc]]]]]]]].
  - reflexivity.
  - now rewrite (_submit_command_fails _ _ _ _ _ _ _ Ht Hs Ho Hc).
  - rewrite (_submit_outcome _ _ _ _ _ _ _ Ht Hs Ho Hc). cbv zeta.
    destruct (Z.eqb (pr_returncode (os_exec env command)) 0),
      (PyStr.re_search_digits ""
       (PyStr.bytes_repr (pr_stdout (os_exec env command)))),
      (PyStr.decode (pr_stdout (os_exec env command))); reflexivity.
Qed.

Lemma _run_outcome env command wait stdin stdout stderr fs :
  _run env command wait stdin stdout stderr fs
  = (OK (pr_pid (os_exec env command)), fs, run_trace env command wait).
Proof. destruct wait; reflexivity. Qed.

(** What recording the job id adds to a run. *)
Lemma bind_record_job_id (m : M Z) fs :
  bind m record_job_id fs =
  match m fs with
  | (OK jobId, fs', tr) => (OK jobId, fs', (tr ++ [EvSetJobId jobId])%list)
  | (Raise e, fs', tr) => (Raise e, fs', tr)
  end.
Proof. unfold bind. now destruct (m fs) as [[[jobId|e] fs'] tr]. Qed.

(** [launch] in terms of the branch it takes and the helpers above. *)
Lemma launch_by_branch env protocol wait stdin stdout stderr fs :
  launch env protocol wait stdin stdout stderr fs =
  match launch_branch protocol with
  | OK Remote => bind (_launchRemote env protocol wait) record_job_id fs
  | OK LocalQueued =>
      bind (_submit env (getHostConfig protocol) (merged_dict env protocol))
           record_job_id fs
  | OK LocalDirect =>
      bind (_run env (local_command env protocol) wait stdin stdout stderr)
           record_job_id fs
  | Raise e => (Raise e, fs, [])
  end.
Proof. apply launch_takes_branch. Qed.

(** X1: A job id is recorded exactly when [launch] returns one: it is the last
    thing [launch] does, it happens once, and it does not happen when
    [launch] raises. *)
Theorem launch_records_job_id_on_return :
  forall env protocol wait stdin stdout stderr fs,
    let o := launch env protocol wait stdin stdout stderr fs in
    (forall jobId,
       result o = OK jobId ->
       exists tr,
         trace o = (tr ++ [EvSetJobId jobId])%list
         /\ existsb sets_job_id tr = false)
    /\ (forall e,
          result o = Raise e -> existsb sets_job_id (trace o) = false).
Proof.
  intros env protocol wait stdin stdout stderr fs o. subst o.
  rewrite launch_by_branch.
  assert (Hbind : forall m : M Z,
    existsb sets_job_id (trace (m fs)) = false ->
    (forall jobId,
       result (bind m record_job_id fs) = OK jobId ->
       exists tr,
         trace (bind m record_job_id fs) = (tr ++ [EvSetJobId jobId])%list
         /\ existsb sets_job_id tr = false)
    /\ (forall e,
          result (bind m record_job_id fs) = Raise e ->
          existsb sets_job_id (trace (bind m record_job_id fs)) = false)).
  { intros m Hm. rewrite bind_record_job_id.
    destruct (m fs) as [[[j|e'] fs'] tr]; unfold result, trace in *;
      simpl in *; split.
    - intros jobId H. inversion H; subst. eauto.
    - discriminate.
    - discriminate.
    - intros e _. exact Hm. }
  destruct (launch_branch protocol) as [[| |]|e].
  - apply Hbind. now rewrite _run_outcome; destruct wait.
  - apply Hbind. apply _submit_sets_no_job_id.
  - apply Hbind. now rewrite _launchRemote_outcome.
  - split; [discriminate|reflexivity].
Qed.

Lemma launch_records_job_id_on_return_witness :
  let env := Scenario.env_with "your job 555 ..." "" 0 in
  let o := launch env (Scenario.queued false) false Inherit Inherit Inherit
                  Scenario.logs_fs in
  exists tr,
    trace o = (tr ++ [EvSetJobId 555])%list
    /\ existsb sets_job_id tr = false.
Proof.
  intros env o.
  apply (proj1 (launch_records_job_id_on_return env (Scenario.queued false)
                  false Inherit Inherit Inherit Scenario.logs_fs) 555).
  vm_compute. reflexivity.
Defined.

(** X2: Only the queue branch writes: on every other branch, and when the
    branch cannot be decided, [launch] leaves the file system as it was. *)
Theorem launch_writes_only_when_queued :
  forall env protocol wait stdin stdout stderr fs,
    launch_branch protocol <> OK LocalQueued ->
    final_fs (launch env protocol wait stdin stdout stderr fs) = fs.
Proof.
  intros env protocol wait stdin stdout stderr fs Hb.
  rewrite launch_by_branch.
  destruct (launch_branch protocol) as [[| |]|e].
  - now rewrite bind_record_job_id, _run_outcome.
  - congruence.
  - now rewrite bind_record_job_id, _launchRemote_outcome.
  - reflexivity.
Qed.

Lemma launch_writes_only_when_queued_witness :
  final_fs (launch (Scenario.env_with "Scipion remote jobid: 42" "" 0)
              Scenario.remote false Inherit Inherit Inherit Scenario.only_tmp)
  = Scenario.only_tmp.
Proof.
  apply (launch_writes_only_when_queued
           (Scenario.env_with "Scipion remote jobid: 42" "" 0)
           Scenario.remote false Inherit Inherit Inherit Scenario.only_tmp).
  vm_compute. discriminate.
Defined.

(** X3: A local protocol that asks for the queue must say ["QUEUE_FOR_JOBS"]
    in its own submit dictionary: without the entry [launch] raises
    [KeyError] before it does anything, whatever the defaults of the host
    hold. *)
Theorem launch_needs_queue_for_jobs :
  forall env protocol wait stdin stdout stderr fs,
    _isLocal protocol = true ->
    useQueue protocol = true ->
    getSubmitDict protocol !! "QUEUE_FOR_JOBS" = None ->
    launch env protocol wait stdin stdout stderr fs
    = (Raise (KeyError "QUEUE_FOR_JOBS"), fs, []).
Proof.
  intros env protocol wait stdin stdout stderr fs Hlocal Hqueue Hnone.
  rewrite launch_by_branch.
  unfold launch_branch, launch_queue_test, dict_get.
  now rewrite Hlocal, Hqueue, Hnone.
Qed.

Lemma launch_needs_queue_for_jobs_witness :
  getQueuesDefault (getHostConfig Cases.no_queue_entry) !! "QUEUE_FOR_JOBS"
  = Some (VStr "N")
  /\ launch (Scenario.env_with "your job 555" "" 0) Cases.no_queue_entry
            false Inherit Inherit Inherit Scenario.logs_fs
     = (Raise (KeyError "QUEUE_FOR_JOBS"), Scenario.logs_fs, []).
Proof.
  split; [reflexivity|].
  apply (launch_needs_queue_for_jobs (Scenario.env_with "your job 555" "" 0)
           Cases.no_queue_entry false Inherit Inherit Inherit
           Scenario.logs_fs); reflexivity.
Defined.

(** X4: A local protocol that does not ask for the queue, or whose
    ["QUEUE_FOR_JOBS"] entry is not the string ["N"], is run as a process
    of this machine: [launch] spawns the command, waits for it exactly when
    [wait] is set, and returns and records the pid. *)
Theorem launch_direct_outcome :
  forall env protocol wait stdin stdout stderr fs,
    _isLocal protocol = true ->
    useQueue protocol = false
    \/ (exists v, getSubmitDict protocol !! "QUEUE_FOR_JOBS" = Some v
                  /\ py_eq_str v "N" = false) ->
    let command := local_command env protocol in
    let pid := pr_pid (os_exec env command) in
    launch env protocol wait stdin stdout stderr fs
    = (OK pid, fs, (run_trace env command wait ++ [EvSetJobId pid])%list).
Proof.
  intros env protocol wait stdin stdout stderr fs Hlocal Hdirect command pid.
  rewrite launch_by_branch.
  assert (Hb : launch_branch protocol = OK LocalDirect).
  { unfold launch_branch, launch_queue_test, dict_get. rewrite Hlocal.
    destruct Hdirect as [->|[v [Hv Hn]]]; [reflexivity|].
    rewrite Hv. simpl. rewrite Hn. now destruct (useQueue protocol). }
  rewrite Hb, bind_record_job_id, _run_outcome. reflexivity.
Qed.

Lemma launch_direct_outcome_witness :
  let env := Scenario.env_with "" "" 0 in
  result (launch env Cases.queue_for_steps true Inherit Inherit Inherit
            Scenario.empty_fs) = OK 4242
  /\ existsb (is_wait (local_command env Cases.queue_for_steps))
       (trace (launch env Cases.queue_for_steps true Inherit Inherit Inherit
                 Scenario.empty_fs)) = true.
Proof.
  intros env.
  rewrite (launch_direct_outcome env Cases.queue_for_steps true
             Inherit Inherit Inherit Scenario.empty_fs eq_refl).
  - split; vm_compute; reflexivity.
  - right. exists (VStr "Y"). split; reflexivity.
Defined.

(** X5: The dictionary a queued launch submits: ["JOB_COMMAND"] is the command
    [launch] built, whatever the protocol or the host said of it; every
    other key has the protocol's value when the protocol has one, and the
    host's default otherwise. *)
Theorem launch_queued_dictionary :
  forall env protocol wait stdin stdout stderr fs,
    _isLocal protocol = true ->
    useQueue protocol = true ->
    getSubmitDict protocol !! "QUEUE_FOR_JOBS" = Some (VStr "N") ->
    launch env protocol wait stdin stdout stderr fs
    = bind (_submit env (getHostConfig protocol) (merged_dict env protocol))
           record_job_id fs
    /\ merged_dict env protocol !! "JOB_COMMAND"
       = Some (VStr (local_command env protocol))
    /\ forall k,
         k <> "JOB_COMMAND" ->
         merged_dict env protocol !! k
         = match getSubmitDict protocol !! k with
           | Some v => Some v
           | None => getQueuesDefault (getHostConfig protocol) !! k
           end.
Proof.
  intros env protocol wait stdin stdout stderr fs Hlocal Hqueue Hn.
  split; [|split].
  - rewrite launch_by_branch.
    unfold launch_branch, launch_queue_test, dict_get.
    now rewrite Hlocal, Hqueue, Hn.
  - apply lookup_insert_eq.
  - intros k Hk. unfold merged_dict.
    rewrite lookup_insert_ne by congruence. rewrite lookup_union.
    destruct (getSubmitDict protocol !! k) as [v|];
      destruct (getQueuesDefault (getHostConfig protocol) !! k);
      reflexivity.
Qed.

Lemma launch_queued_dictionary_witness :
  merged_dict (Scenario.env_with "" "" 0) (Scenario.queued false)
    !! "JOB_SCRIPT"
  = Some (VStr "logs/3.job").
Proof.
  rewrite (proj2 (proj2 (launch_queued_dictionary (Scenario.env_with "" "" 0)
                           (Scenario.queued false) false
                           Inherit Inherit Inherit Scenario.logs_fs
                           eq_refl eq_refl eq_refl)) "JOB_SCRIPT")
    by discriminate.
  reflexivity.
Defined.

(** X6: [launch] does not choose the script path: when neither the protocol
    nor the defaults of the host name ["JOB_SCRIPT"], a queued launch whose
    script template formats raises [KeyError] with nothing written and
    nothing spawned. *)
Theorem launch_needs_job_script :
  forall env protocol wait stdin stdout stderr fs text,
    _isLocal protocol = true ->
    useQueue protocol = true ->
    getSubmitDict protocol !! "QUEUE_FOR_JOBS" = Some (VStr "N") ->
    getSubmitDict protocol !! "JOB_SCRIPT" = None ->
    getQueuesDefault (getHostConfig protocol) !! "JOB_SCRIPT" = None ->
    py_format env (getSubmitTemplate (getHostConfig protocol))
                       (merged_dict env protocol) = OK text ->
    launch env protocol wait stdin stdout stderr fs
    = (Raise (KeyError "JOB_SCRIPT"), fs, []).
Proof.
  intros env protocol wait stdin stdout stderr fs text
    Hlocal Hqueue Hn Hp Hh Ht.
  rewrite launch_by_branch.
  unfold launch_branch, launch_queue_test, dict_get.
  rewrite Hlocal, Hqueue, Hn. simpl.
  rewrite bind_record_job_id, (_submit_no_script _ _ _ _ text Ht);
    [reflexivity|].
  unfold merged_dict. rewrite lookup_insert_ne by discriminate.
  rewrite lookup_union, Hp, Hh. reflexivity.
Qed.

Lemma launch_needs_job_script_witness :
  launch (Scenario.env_with "your job 555" "" 0) Cases.no_script
         false Inherit Inherit Inherit Scenario.logs_fs
  = (Raise (KeyError "JOB_SCRIPT"), Scenario.logs_fs, []).
Proof.
  apply (launch_needs_job_script (Scenario.env_with "your job 555" "" 0)
           Cases.no_script false Inherit Inherit Inherit Scenario.logs_fs
           (local_command (Scenario.env_with "your job 555" "" 0)
              Cases.no_script));
    vm_compute; reflexivity.
Defined.

(** X7: A remote launch ignores [wait] and the three redirections: it always
    waits for the remote helper, and for nothing else. *)
Theorem launch_remote_ignores_wait :
  forall env protocol fs wait stdin stdout stderr wait' stdin' stdout' stderr',
    _isLocal protocol = false ->
    launch env protocol wait stdin stdout stderr fs
    = launch env protocol wait' stdin' stdout' stderr' fs.
Proof.
  intros env protocol fs wait stdin stdout stderr wait' stdin' stdout' stderr'
    Hremote.
  rewrite !launch_by_branch. unfold launch_branch. rewrite Hremote.
  now rewrite !bind_record_job_id, !_launchRemote_outcome.
Qed.

Lemma launch_remote_ignores_wait_witness :
  let env := Scenario.env_with "Scipion remote jobid: 42" "" 0 in
  launch env Scenario.remote true PIPE PIPE PIPE Scenario.empty_fs
  = launch env Scenario.remote false Inherit Inherit Inherit Scenario.empty_fs.
Proof.
  intros env.
  apply (launch_remote_ignores_wait env Scenario.remote Scenario.empty_fs).
  reflexivity.
Defined.

(** ** Scheduling *)

(** X8: [schedule] looks at neither the host nor the queue settings of the
    protocol: it always spawns the scheduling script on this machine,
    waits for it exactly when [wait] is set, and returns and records its
    pid; it cannot fail and writes nothing. *)
Theorem schedule_runs_locally :
  forall env protocol initialSleepTime wait fs,
    let command := schedule_command env protocol initialSleepTime in
    let pid := pr_pid (os_exec env command) in
    schedule env protocol initialSleepTime wait fs
    = (OK pid, fs, (run_trace env command wait ++ [EvSetJobId pid])%list).
Proof.
  intros env protocol initialSleepTime wait fs command pid.
  unfold schedule. cbv zeta. rewrite !app_assoc.
  change (bind (_run env command wait Inherit Inherit Inherit)
               record_job_id fs
          = (OK pid, fs,
             (run_trace env command wait ++ [EvSetJobId pid])%list)).
  now rewrite bind_record_job_id, _run_outcome.
Qed.

(** ** The remote command *)

Lemma split_last_slash_no_slash name :
  no_slash name = true -> PyStr.split_last_slash name = None.
Proof.
  induction name as [|c name IH]; [reflexivity|].
  simpl. intros H. apply andb_true_iff in H as [Hc Hn].
  apply negb_true_iff in Hc. now rewrite (IH Hn), Hc.
Qed.

(** [basename] of a directory, a slash and a file name is the file name. *)
Lemma basename_join dir name :
  no_slash name = true -> PyStr.basename (dir +:+ "/" +:+ name) = name.
Proof.
  intros Hn. unfold PyStr.basename.
  assert (H : PyStr.split_last_slash (dir +:+ "/" +:+ name)
              = Some (dir +:+ "/", name)).
  { induction dir as [|c dir IH].
    - change ("" +:+ "/" +:+ name) with (String "/" name). simpl.
      now rewrite (split_last_slash_no_slash _ Hn).
    - change (String c dir +:+ "/" +:+ name)
        with (String c (dir +:+ "/" +:+ name)).
      simpl. now rewrite IH. }
  now rewrite H.
Qed.

(** X9: The remote side is told the base name of the project and nothing of
    the directory it lies in here: two protocols whose project paths end
    in the same name, and that agree on host, database path and id, are
    run and stopped with the same command. *)
Theorem remote_command_uses_base_name :
  forall p q mode dir dir' name,
    getProjectPath p = dir +:+ "/" +:+ name ->
    getProjectPath q = dir' +:+ "/" +:+ name ->
    no_slash name = true ->
    getHostConfig p = getHostConfig q ->
    getDbPath p = getDbPath q ->
    getObjId p = getObjId q ->
    remote_command p mode = remote_command q mode.
Proof.
  intros p q mode dir dir' name Hp Hq Hn Hh Hd Hi.
  unfold remote_command.
  now rewrite Hp, Hq, !(basename_join _ _ Hn), Hh, Hd, Hi.
Qed.

Lemma remote_command_uses_base_name_witness :
  remote_command Scenario.remote "run"
  = remote_command
      (mkProtocol "other" Scenario.cluster true ∅ true 0 0
                  "/home/user/ScipionUserData/projects/demo"
                  "Runs/000003/logs/run.db" 3) "run".
Proof.
  apply (remote_command_uses_base_name Scenario.remote _ "run"
           "/data/projects" "/home/user/ScipionUserData/projects" "demo");
    reflexivity.
Defined.

(** ** The job ids that are parsed *)

Lemma submit_returns_first_digits_witness :
  result (_submit (Scenario.env_with "555.master.cluster" "" 0)
            Scenario.torque (Scenario.job_dict "logs/3.job") Scenario.logs_fs)
  = OK 555.
Proof.
  refine (proj2 (submit_returns_first_digits
                   (Scenario.env_with "555.master.cluster" "" 0)
                   Scenario.torque (Scenario.job_dict "logs/3.job")
                   Scenario.logs_fs
                   "python pw_protocol_run.py" "logs/3.job" "qsub logs/3.job"
                   _ _ _ _ _) _ "" "555" ".master.cluster" _);
    try (vm_compute; reflexivity).
  repeat split.
  - discriminate.
  - intros pre' ds' post' _. simpl. lia.
Defined.

Lemma submit_soft_fails_witness :
  let env := Scenario.env_with "qsub: unknown queue" "" 1 in
  let o := _submit env Scenario.torque (Scenario.job_dict "logs/3.job")
                   Scenario.logs_fs in
  result o = OK (-1)
  /\ In (EvPrint "Couldn't submit to queue for reason: qsub: unknown queue ")
        (trace o).
Proof.
  intros env o.
  refine (submit_soft_fails env Scenario.torque
            (Scenario.job_dict "logs/3.job") Scenario.logs_fs
            "python pw_protocol_run.py" "logs/3.job" "qsub logs/3.job"
            _ _ _ _ _ _); try (vm_compute; reflexivity).
  left. simpl. lia.
Defined.

Lemma digit_val_nonneg c : PyStr.is_digit c = true -> 0 <= PyStr.digit_val c.
Proof.
  unfold PyStr.is_digit, PyStr.digit_val. intros H.
  apply andb_true_iff in H as [H _]. apply N.leb_le in H. lia.
Qed.

Lemma int_of_digits_nonneg ds :
  PyStr.all_digits ds = true -> 0 <= PyStr.int_of_digits ds.
Proof.
  unfold PyStr.int_of_digits.
  assert (H : forall acc, 0 <= acc -> PyStr.all_digits ds = true ->
     0 <= fold_left (fun acc c => 10 * acc + PyStr.digit_val c)
                    (list_ascii_of_string ds) acc).
  { induction ds as [|c ds IH]; intros acc Hacc Hds; [exact Hacc|].
    simpl in Hds. apply andb_true_iff in Hds as [Hc Hds]. simpl.
    apply IH; [|exact Hds]. pose proof (digit_val_nonneg c Hc). lia. }
  apply H. lia.
Qed.

Lemma re_search_digits_all_digits lit s ds :
  PyStr.re_search_digits lit s = Some ds -> PyStr.all_digits ds = true.
Proof.
  intros H. apply re_search_Some in H as [pre [post [[_ [_ Hds]] _]]].
  exact Hds.
Qed.

(** X14: an id that [_submit] parsed is never negative: what [_submit]
    returns is [UNKNOWN_JOBID] or a number that is at least 0. *)
Theorem parsed_job_ids_are_not_negative :
  forall env hostConfig submitDict fs jobId,
    result (_submit env hostConfig submitDict fs) = OK jobId ->
    jobId = UNKNOWN_JOBID env \/ 0 <= jobId.
Proof.
  intros env hostConfig submitDict fs jobId.
  destruct (_submit_inv env hostConfig submitDict fs)
    as [[e ->]|[text [path [Ht [Hs [Ho [[e Hc]|[command Hc]]]]]]]].
  - discriminate.
  - rewrite (_submit_command_fails _ _ _ _ _ _ _ Ht Hs Ho Hc). discriminate.
  - rewrite (_submit_outcome _ _ _ _ _ _ _ Ht Hs Ho Hc). cbv zeta.
    destruct (Z.eqb (pr_returncode (os_exec env command)) 0),
      (PyStr.re_search_digits ""
         (PyStr.bytes_repr (pr_stdout (os_exec env command))))
        as [ds|] eqn:E,
      (PyStr.decode (pr_stdout (os_exec env command)));
      unfold result; simpl; intros H; inversion H; auto.
    all: right; apply int_of_digits_nonneg;
      now apply re_search_digits_all_digits in E.
Qed.

Lemma parsed_job_ids_are_not_negative_witness :
  let env := Scenario.env_with "555.master.cluster" "" 0 in
  result (_submit env Scenario.torque (Scenario.job_dict "logs/3.job")
            Scenario.logs_fs) = OK 555
  /\ (555 = UNKNOWN_JOBID env \/ 0 <= 555).
Proof.
  intros env. split; [vm_compute; reflexivity|].
  apply (parsed_job_ids_are_not_negative env Scenario.torque
           (Scenario.job_dict "logs/3.job") Scenario.logs_fs 555).
  vm_compute. reflexivity.
Defined.

(** ** Submitting again *)

Lemma length_app s t :
  String.length (s +:+ t) = (String.length s + String.length t)%nat.
Proof.
  induction s as [|c s IH]; [reflexivity|].
  rewrite app_cons. simpl. now rewrite IH.
Qed.

Lemma dirs_upto_length d : forall acc x,
  In x (dirs_upto acc d) ->
  (String.length x <= String.length acc + String.length d)%nat.
Proof.
  induction d as [|c d IH]; intros acc x Hx.
  - simpl in Hx. destruct acc; [destruct Hx|].
    destruct Hx as [<-|[]]. lia.
  - simpl in Hx.
    assert (Hrest : In x (dirs_upto (PyFormat.snoc acc c) d) ->
              (String.length x <= String.length acc + S (String.length d))%nat).
    { intros H. apply IH in H. unfold PyFormat.snoc in H.
      rewrite length_app in H. simpl in H. lia. }
    simpl. destruct (Ascii.eqb c "/" && negb (String.eqb acc "")).
    + destruct Hx as [<-|Hx]; [lia|now apply Hrest].
    + now apply Hrest.
Qed.

Lemma split_last_slash_app p : forall h t,
  PyStr.split_last_slash p = Some (h, t) -> p = h +:+ t.
Proof.
  induction p as [|c p IH]; intros h t H; [discriminate|].
  simpl in H. destruct (PyStr.split_last_slash p) as [[h' t']|].
  - inversion H; subst. rewrite app_cons. f_equal. now apply IH.
  - destruct (Ascii.eqb_spec c "/") as [->|]; [|discriminate].
    now inversion H.
Qed.

Lemma rstrip_slash_length s :
  (String.length (PyStr.rstrip_slash s) <= String.length s)%nat.
Proof.
  induction s as [|c s IH]; [reflexivity|].
  simpl. destruct (PyStr.rstrip_slash s) as [|b r].
  - destruct (Ascii.eqb c "/"); simpl; lia.
  - simpl in *. lia.
Qed.

(** The directory of a path that ends in a file name is shorter than the
    path. *)
Lemma dirname_shorter p :
  PyStr.basename p <> "" ->
  (String.length (PyStr.dirname p) < String.length p)%nat.
Proof.
  unfold PyStr.basename, PyStr.dirname.
  destruct (PyStr.split_last_slash p) as [[h t]|] eqn:E.
  - intros Ht. apply split_last_slash_app in E. subst p.
    rewrite length_app. pose proof (rstrip_slash_length h) as Hr.
    assert (0 < String.length t)%nat by (destruct t; [congruence|simpl; lia]).
    destruct (PyStr.rstrip_slash h); simpl in *; lia.
  - intros Hp. destruct p; [congruence|simpl; lia].
Qed.

(** The file system after [makeFilePath] and the write of [data]. *)
Lemma _submit_final_fs env hostConfig submitDict fs text path command :
  py_format env (getSubmitTemplate hostConfig) submitDict = OK text ->
  submitDict !! "JOB_SCRIPT" = Some (VStr path) ->
  can_open fs path = true ->
  py_format env (getSubmitCommand hostConfig) submitDict = OK command ->
  final_fs (_submit env hostConfig submitDict fs)
  = mkFS (list_to_set (dirs_upto "" (PyStr.dirname path)) ∪ fs_dirs fs)
         (<[path := text +:+ nl +:+ nl]> (<[path := ""]> (fs_files fs))).
Proof.
  intros Ht Hs Ho Hc.
  rewrite (_submit_outcome _ _ _ _ _ _ _ Ht Hs Ho Hc). cbv zeta.
  destruct (Z.eqb (pr_returncode (os_exec env command)) 0),
    (PyStr.re_search_digits ""
       (PyStr.bytes_repr (pr_stdout (os_exec env command)))),
    (PyStr.decode (pr_stdout (os_exec env command))); reflexivity.
Qed.

(** A script that could be opened can be opened again after it has been
    persisted. *)
Lemma can_open_persisted fs path files :
  PyStr.basename path <> "" ->
  can_open fs path = true ->
  can_open (mkFS (list_to_set (dirs_upto "" (PyStr.dirname path))
                  ∪ fs_dirs fs) files) path = true.
Proof.
  intros Hb Ho. unfold can_open in *.
  apply andb_true_iff in Ho as [Ho Hparent].
  apply andb_true_iff in Ho as [Hne Hnd].
  rewrite Hne. simpl.
  apply negb_true_iff, bool_decide_eq_false in Hnd.
  assert (Hnew : path ∉ (list_to_set (dirs_upto "" (PyStr.dirname path))
                         : gset string)).
  { rewrite elem_of_list_to_set, list_elem_of_In. intros Hin.
    apply dirs_upto_length in Hin. apply dirname_shorter in Hb.
    simpl in Hin. lia. }
  assert (Hnot : path ∉ list_to_set (dirs_upto "" (PyStr.dirname path))
                        ∪ fs_dirs fs)
    by (intros [H1|H2]%elem_of_union; [now apply Hnew|now apply Hnd]).
  cbn [fs_dirs]. rewrite (bool_decide_eq_false_2 _ Hnot). simpl.
  unfold parent_exists in *. cbn [fs_dirs].
  destruct (PyStr.dirname path) as [|c d]; [reflexivity|].
  apply orb_true_iff in Hparent as [Hroot|Hin].
  - rewrite Hroot. reflexivity.
  - apply bool_decide_eq_true in Hin. apply orb_true_iff. right.
    apply bool_decide_eq_true. set_solver.
Qed.

(** X17: submitting again overwrites.  When a submission has reached the
    queue, the same submission run on the file system the first one left,
    whatever the scheduler answers this time, leaves the script with the
    same text and the file system as the first run left it, and reaches the
    queue again. *)
Theorem submit_again_overwrites :
  forall env env' hostConfig submitDict fs text path command command',
    py_format env (getSubmitTemplate hostConfig) submitDict = OK text ->
    py_format env (getSubmitCommand hostConfig) submitDict = OK command ->
    py_format env' (getSubmitTemplate hostConfig) submitDict = OK text ->
    py_format env' (getSubmitCommand hostConfig) submitDict = OK command' ->
    submitDict !! "JOB_SCRIPT" = Some (VStr path) ->
    PyStr.basename path <> "" ->
    can_open fs path = true ->
    let once := _submit env hostConfig submitDict fs in
    let twice := _submit env' hostConfig submitDict (final_fs once) in
    final_fs twice = final_fs once
    /\ fs_files (final_fs twice) !! path = Some (text +:+ nl +:+ nl)
    /\ In (EvSpawn command') (trace twice).
Proof.
  intros env env' hostConfig submitDict fs text path command command'
    Ht Hc Ht' Hc' Hs Hb Ho once twice. subst once twice.
  rewrite (_submit_final_fs _ _ _ _ _ _ _ Ht Hs Ho Hc).
  pose proof (can_open_persisted fs path
                (<[path := text +:+ nl +:+ nl]> (<[path := ""]> (fs_files fs)))
                Hb Ho) as Ho'.
  rewrite (_submit_final_fs _ _ _ _ _ _ _ Ht' Hs Ho' Hc').
  split; [|split].
  - simpl. rewrite !insert_insert_eq.
    now rewrite (assoc_L (∪)), (idemp_L (∪)).
  - simpl. apply lookup_insert_eq.
  - rewrite (_submit_outcome _ _ _ _ _ _ _ Ht' Hs Ho' Hc'). cbv zeta.
    destruct (Z.eqb (pr_returncode (os_exec env' command')) 0),
      (PyStr.re_search_digits ""
         (PyStr.bytes_repr (pr_stdout (os_exec env' command')))),
      (PyStr.decode (pr_stdout (os_exec env' command')));
      unfold trace; simpl; tauto.
Qed.

Lemma submit_again_overwrites_witness :
  let env := Scenario.env_with "your job 555" "" 0 in
  let env' := Scenario.env_with "your job 556" "" 0 in
  let d := Scenario.job_dict "logs/3.job" in
  let once := _submit env Scenario.torque d Scenario.logs_fs in
  let twice := _submit env' Scenario.torque d (final_fs once) in
  result once = OK 555 /\ result twice = OK 556
  /\ final_fs twice = final_fs once
  /\ fs_files (final_fs twice) !! "logs/3.job"
     = Some ("python pw_protocol_run.py" +:+ nl +:+ nl)
  /\ In (EvSpawn "qsub logs/3.job") (trace twice).
Proof.
  intros env env' d once twice.
  split; [vm_compute; reflexivity|]. split; [vm_compute; reflexivity|].
  refine (submit_again_overwrites env env' Scenario.torque d Scenario.logs_fs
            "python pw_protocol_run.py" "logs/3.job" "qsub logs/3.job"
            "qsub logs/3.job" _ _ _ _ _ _ _); try (vm_compute; reflexivity).
  vm_compute. discriminate.
Defined.

(** ** One process for a call *)

Lemma count_spawns_app tr tr' :
  count_spawns (tr ++ tr') = (count_spawns tr + count_spawns tr')%nat.
Proof.
  induction tr as [|e tr IH]; [reflexivity|].
  destruct e; simpl; now rewrite IH.
Qed.

Lemma _submit_spawns_at_most_once env hostConfig submitDict fs :
  (count_spawns (trace (_submit env hostConfig submitDict fs)) <= 1)%nat.
Proof.
  destruct (_submit_inv env hostConfig submitDict fs)
    as [[e ->]|[text [path [Ht [Hs [Ho [[e Hc]|[command Hc]]]]]]]].
  - simpl. lia.
  - rewrite (_submit_command_fails _ _ _ _ _ _ _ Ht Hs Ho Hc). simpl. lia.
  - rewrite (_submit_outcome _ _ _ _ _ _ _ Ht Hs Ho Hc). cbv zeta.
    destruct (Z.eqb (pr_returncode (os_exec env command)) 0),
      (PyStr.re_search_digits ""
         (PyStr.bytes_repr (pr_stdout (os_exec env command)))),
      (PyStr.decode (pr_stdout (os_exec env command)));
      unfold trace; simpl; lia.
Qed.

Lemma schedule_by_run env protocol initialSleepTime wait fs :
  schedule env protocol initialSleepTime wait fs
  = bind (_run env (schedule_command env protocol initialSleepTime) wait
               Inherit Inherit Inherit)
         record_job_id fs.
Proof. unfold schedule. cbv zeta. now rewrite !app_assoc. Qed.

(** X13: a call of [launch], of [stop] or of [schedule] spawns at most one
    process, on every branch and whether it returns or raises. *)
Theorem one_process_for_a_call :
  forall env protocol wait stdin stdout stderr initialSleepTime fs,
    (count_spawns (trace (launch env protocol wait stdin stdout stderr fs))
     <= 1)%nat
    /\ (count_spawns (trace (stop env protocol fs)) <= 1)%nat
    /\ (count_spawns (trace (schedule env protocol initialSleepTime wait fs))
        <= 1)%nat.
Proof.
  intros env protocol wait stdin stdout stderr initialSleepTime fs.
  assert (Hrecord : forall m : M Z,
    (count_spawns (trace (m fs)) <= 1)%nat ->
    (count_spawns (trace (bind m record_job_id fs)) <= 1)%nat).
  { intros m Hm. rewrite bind_record_job_id.
    destruct (m fs) as [[[j|e] fs'] tr]; unfold trace in *; simpl in *;
      [|exact Hm].
    rewrite count_spawns_app. simpl. lia. }
  split; [|split].
  - rewrite launch_by_branch.
    destruct (launch_branch protocol) as [[| |]|e].
    + apply Hrecord. rewrite _run_outcome. destruct wait; simpl; lia.
    + apply Hrecord. apply _submit_spawns_at_most_once.
    + apply Hrecord. rewrite _launchRemote_outcome. simpl. lia.
    + simpl. lia.
  - rewrite stop_takes_branch. destruct (stop_branch protocol).
    + simpl. lia.
    + destruct (py_format env (getCancelCommand (getHostConfig protocol))
                  {["JOB_ID" := VInt (getJobId protocol)]}) as [cmd|e].
      * rewrite bind_lift_OK. simpl. lia.
      * simpl. lia.
    + simpl. lia.
  - rewrite schedule_by_run. apply Hrecord.
    rewrite _run_outcome. destruct wait; simpl; lia.
Qed.
